(** * Vehicle-registry call assistant: the message handler and its store

    A shallow embedding of [backend/agent.py]: the [Car] record, the SQLite
    backed [DatabaseDriver], the per-process [AssistantFnc] cache and the
    [handle_msg] callback that routes one user utterance.

    Modelling conventions.
    - Python [str] is [string]; the embedding covers 7-bit ASCII text, where
      [str.lower], [str.split] and [int] have the simple behaviour written
      below.  Code points above 127 are outside the model.
    - Python [int] is [Z].  SQLite stores an INTEGER in 64 bits; binding a
      larger Python int raises [OverflowError] before the statement runs.
    - The [cars] table is the list of its rows in insertion order.  The
      PRIMARY KEY constraint is the check made by [INSERT]; it is not built
      into the type of tables.
    - Exceptions are values of [exn]; code that can raise runs in the monad
      [M], which threads the process state and keeps it when an exception
      passes through, as Python does.
    - [executed] is a ghost trace of the SQL statements sent to the store,
      used only to state that a turn did or did not reach the store.
    - [int] is that of CPython 3.11 and later: a string with more than
      4300 digits is refused with [ValueError] (the default
      [sys.int_max_str_digits]). *)

From Stdlib Require Import String Ascii List ZArith Lia Bool DecimalString.
From Stdlib Require DecimalPos DecimalZ DecimalFacts.
Import ListNotations.

Local Open Scope string_scope.
Local Open Scope Z_scope.

(** ** Python string primitives *)

Module PyStr.

Definition nl : string := String (ascii_of_nat 10) "".

Definition code (c : ascii) : nat := nat_of_ascii c.

(** [str.isspace] on one ASCII character: TAB, LF, VT, FF, CR, the four
    separators FS, GS, RS, US, and the space. *)
Definition isspace (c : ascii) : bool :=
  let n := code c in
  ((9 <=? n) && (n <=? 13) || (28 <=? n) && (n <=? 32))%nat.

Definition isupper (c : ascii) : bool :=
  let n := code c in ((65 <=? n) && (n <=? 90))%nat.

Definition isdigit (c : ascii) : bool :=
  let n := code c in ((48 <=? n) && (n <=? 57))%nat.

Definition lower_char (c : ascii) : ascii :=
  if isupper c then ascii_of_nat (code c + 32) else c.

(** [s.lower()] *)
Fixpoint lower (s : string) : string :=
  match s with
  | EmptyString => EmptyString
  | String c rest => String (lower_char c) (lower rest)
  end.

(** [needle in hay] for two strings: some suffix of [hay] starts with
    [needle]. *)
Fixpoint contains (needle hay : string) : bool :=
  String.prefix needle hay ||
  match hay with
  | EmptyString => false
  | String _ rest => contains needle rest
  end.

Definition emit (tok : string) (toks : list string) : list string :=
  match tok with
  | EmptyString => toks
  | _ => tok :: toks
  end.

(** The scan of [s.split()]: [tok] is the run of non-blank characters read
    so far; a blank character or the end of the string closes it. *)
Fixpoint split_from (tok s : string) : list string :=
  match s with
  | EmptyString => emit tok []
  | String c rest =>
      if isspace c then emit tok (split_from "" rest)
      else split_from (tok ++ String c "") rest
  end.

(** [s.split()] with no argument: maximal runs of non-blank characters. *)
Definition split (s : string) : list string := split_from "" s.

(** [sep.join(items)] *)
Definition join (sep : string) (items : list string) : string :=
  String.concat sep items.

(** [str(z)] for an int.  The handler only renders years read from the
    table, which fit 64 bits. *)
Definition str_of_int (z : Z) : string := NilZero.string_of_int (Z.to_int z).

(** The blanks [int] skips around the digits of an ASCII string: TAB, LF,
    VT, FF, CR and the space (C's [isspace]); the separators FS, GS, RS, US
    are not among them. *)
Definition Py_ISSPACE (c : ascii) : bool :=
  let n := code c in
  ((9 <=? n) && (n <=? 13) || (n =? 32))%nat.

Fixpoint lstrip (s : string) : string :=
  match s with
  | String c rest => if Py_ISSPACE c then lstrip rest else s
  | EmptyString => EmptyString
  end.

Fixpoint rstrip (s : string) : string :=
  match s with
  | EmptyString => EmptyString
  | String c rest =>
      match rstrip rest with
      | EmptyString => if Py_ISSPACE c then EmptyString else String c EmptyString
      | kept => String c kept
      end
  end.

Definition strip (s : string) : string := rstrip (lstrip s).

(** The default [sys.int_max_str_digits]. *)
Definition MAX_STR_DIGITS : Z := 4300.

(** Number of decimal digits in [s]; underscores and the sign do not
    count. *)
Fixpoint digit_count (s : string) : Z :=
  match s with
  | EmptyString => 0
  | String c rest => (if isdigit c then 1 else 0) + digit_count rest
  end.

(** Decimal digits with single underscores allowed between two digits.
    [after_digit] tells whether the previous character was a digit. *)
Fixpoint digits_value (acc : Z) (after_digit : bool) (s : string) : option Z :=
  match s with
  | EmptyString => if after_digit then Some acc else None
  | String c rest =>
      if Ascii.eqb c "_" then
        if after_digit then digits_value acc false rest else None
      else if isdigit c then
        digits_value (10 * acc + (Z.of_nat (code c) - 48)) true rest
      else None
  end.

(** [int(s)] in base 10; [None] stands for the [ValueError] it raises,
    for a malformed literal as for one with more than [MAX_STR_DIGITS]
    digits. *)
Definition int (s : string) : option Z :=
  if MAX_STR_DIGITS <? digit_count (strip s) then None
  else
    match strip s with
    | String "+" rest => digits_value 0 false rest
    | String "-" rest => option_map Z.opp (digits_value 0 false rest)
    | body => digits_value 0 false body
    end.

(** [l.index(x)]: position of the first element equal to [x]; [None]
    stands for the [ValueError] raised when there is none. *)
Fixpoint index (x : string) (l : list string) : option nat :=
  match l with
  | [] => None
  | y :: rest => if String.eqb y x then Some O else option_map S (index x rest)
  end.

End PyStr.

(** ** Data model *)

(** [@dataclass class Car] *)
Record Car : Type := mkCar {
  vin : string;
  make : string;
  model : string;
  year : Z
}.

(** The exception classes that the modelled code can raise.  None of them is
    a subclass of another. *)
Inductive exn : Type :=
| ValueError
| IndexError
| IntegrityError   (* sqlite3.IntegrityError: UNIQUE constraint failed *)
| OverflowError.   (* Python int too large to convert to SQLite INTEGER *)

Definition exn_eqb (a b : exn) : bool :=
  match a, b with
  | ValueError, ValueError
  | IndexError, IndexError
  | IntegrityError, IntegrityError
  | OverflowError, OverflowError => true
  | _, _ => false
  end.

Inductive result (A : Type) : Type :=
| Ok (a : A)
| Raise (e : exn).

Arguments Ok {A} a.
Arguments Raise {A} e.

(** A statement sent through [cursor.execute]. *)
Inductive Stmt : Type :=
| Insert (v mk md : string) (y : Z)
| Select (v : string).

(** The values held by the [_car_details] dict: strings, and the int year
    once a car has been loaded. *)
Inductive pyval : Type :=
| PStr (s : string)
| PInt (z : Z).

(** [class CarDetails(enum.Enum)] *)
Inductive CarDetails : Type := VIN | Make | Model | Year.

Definition CarDetails_value (k : CarDetails) : string :=
  match k with
  | VIN => "vin"
  | Make => "make"
  | Model => "model"
  | Year => "year"
  end.

(** [AssistantFnc._car_details]: a dict with exactly the four keys of
    [CarDetails], always written as one literal in the order VIN, Make,
    Model, Year. *)
Record details : Type := mkDetails {
  d_vin : pyval;
  d_make : pyval;
  d_model : pyval;
  d_year : pyval
}.

(** The state the handler works on: the rows of table [cars], the module
    level [assistant_fnc], and the ghost trace of executed statements. *)
Record world : Type := mkWorld {
  cars : list Car;
  car_details : details;
  executed : list Stmt
}.

Definition set_cars (t : list Car) (w : world) : world :=
  mkWorld t (car_details w) (executed w).

Definition set_details (d : details) (w : world) : world :=
  mkWorld (cars w) d (executed w).

Definition log_stmt (q : Stmt) (w : world) : world :=
  mkWorld (cars w) (car_details w) (executed w ++ [q])%list.

(** ** The monad of stateful code that may raise *)

Definition M (A : Type) : Type := world -> result A * world.

Definition ret {A} (a : A) : M A := fun w => (Ok a, w).

Definition raise {A} (e : exn) : M A := fun w => (Raise e, w).

Definition bind {A B} (m : M A) (k : A -> M B) : M B :=
  fun w =>
    match m w with
    | (Ok a, w') => k a w'
    | (Raise e, w') => (Raise e, w')
    end.

Notation "x <- m ;; k" := (bind m (fun x => k))
  (at level 61, m at next level, right associativity).

(** [try: body except (classes): handler].  An exception whose class is not
    listed passes through. *)
Definition try_except {A} (body : M A) (classes : list exn) (handler : M A) : M A :=
  fun w =>
    match body w with
    | (Ok a, w') => (Ok a, w')
    | (Raise e, w') =>
        if existsb (exn_eqb e) classes then handler w' else (Raise e, w')
    end.

Definition get_world : M world := fun w => (Ok w, w).

Definition modify (f : world -> world) : M unit := fun w => (Ok tt, f w).

(** [l[i]] for a list and a non-negative index. *)
Definition item (l : list string) (i : nat) : M string :=
  match nth_error l i with
  | Some x => ret x
  | None => raise IndexError
  end.

(** [l.index(x)] *)
Definition list_index (x : string) (l : list string) : M nat :=
  match PyStr.index x l with
  | Some i => ret i
  | None => raise ValueError
  end.

(** [int(s)] *)
Definition py_int (s : string) : M Z :=
  match PyStr.int s with
  | Some z => ret z
  | None => raise ValueError
  end.

(** ** DatabaseDriver *)

Module DatabaseDriver.

(** [_init_db] on a fresh database file: the table exists and is empty. *)
Definition _init_db : list Car := [].

Definition fits_int64 (z : Z) : bool :=
  (- 2 ^ 63 <=? z) && (z <? 2 ^ 63).

(** First row whose [vin] column equals [v] (binary collation). *)
Fixpoint fetchone (v : string) (t : list Car) : option Car :=
  match t with
  | [] => None
  | r :: rest => if String.eqb (vin r) v then Some r else fetchone v rest
  end.

(** The [INSERT INTO cars] statement on the rows of the table: the
    parameters are bound first, then the PRIMARY KEY constraint on [vin] is
    checked, then the row is appended. *)
Definition insert (v mk md : string) (y : Z) (t : list Car) : result (list Car) :=
  if negb (fits_int64 y) then Raise OverflowError
  else match fetchone v t with
       | Some _ => Raise IntegrityError
       | None => Ok (t ++ [mkCar v mk md y])%list
       end.

(** [create_car].  The Python method ends in [return Car(...)]; its result
    is given the type [option Car] so that the caller's test
    [result is None] can be written. *)
Definition create_car (v mk md : string) (y : Z) : M (option Car) :=
  _ <- modify (log_stmt (Insert v mk md y)) ;;
  w <- get_world ;;
  match insert v mk md y (cars w) with
  | Raise e => raise e
  | Ok t =>
      _ <- modify (set_cars t) ;;
      ret (Some (mkCar v mk md y))
  end.

(** [get_car_by_vin] *)
Definition get_car_by_vin (v : string) : M (option Car) :=
  _ <- modify (log_stmt (Select v)) ;;
  w <- get_world ;;
  match fetchone v (cars w) with
  | None => ret None
  | Some row => ret (Some (mkCar (vin row) (make row) (model row) (year row)))
  end.

End DatabaseDriver.

(** ** AssistantFnc *)

Module AssistantFnc.

(** [__init__] *)
Definition init : details :=
  mkDetails (PStr "") (PStr "") (PStr "") (PStr "").

(** [str(value)], as used by the f-string in [get_car_str]. *)
Definition format (v : pyval) : string :=
  match v with
  | PStr s => s
  | PInt z => PyStr.str_of_int z
  end.

(** [bool(value)] *)
Definition truthy (v : pyval) : bool :=
  match v with
  | PStr s => negb (String.eqb s "")
  | PInt z => negb (Z.eqb z 0)
  end.

(** [self._car_details.items()] *)
Definition items (d : details) : list (CarDetails * pyval) :=
  [(VIN, d_vin d); (Make, d_make d); (Model, d_model d); (Year, d_year d)].

(** The dict literal written by [lookup_car] and [create_car]. *)
Definition details_of (c : Car) : details :=
  mkDetails (PStr (vin c)) (PStr (make c)) (PStr (model c)) (PInt (year c)).

Definition get_car_str (d : details) : string :=
  PyStr.join PyStr.nl
    (map (fun kv => CarDetails_value (fst kv) ++ ": " ++ format (snd kv)) (items d)).

Definition lookup_car (v : string) : M string :=
  res <- DatabaseDriver.get_car_by_vin v ;;
  match res with
  | None => ret "Car not found"
  | Some c =>
      _ <- modify (set_details (details_of c)) ;;
      w <- get_world ;;
      ret ("The car details are:" ++ PyStr.nl ++ get_car_str (car_details w))
  end.

Definition create_car (v mk md : string) (y : Z) : M string :=
  res <- DatabaseDriver.create_car v mk md y ;;
  match res with
  | None => ret "Failed to create car"
  | Some c =>
      _ <- modify (set_details (details_of c)) ;;
      ret "Car profile created!"
  end.

Definition get_car_details : M string :=
  w <- get_world ;;
  if negb (truthy (d_vin (car_details w))) then ret "No car profile set yet."
  else ret ("Current car:" ++ PyStr.nl ++ get_car_str (car_details w)).

Definition has_car : M bool :=
  w <- get_world ;;
  ret (truthy (d_vin (car_details w))).

End AssistantFnc.

(** ** The message handler *)

Definition LOOKUP_RETRY : string :=
  "Please provide a VIN after the word 'vin' to look up.".

Definition CREATE_RETRY : string :=
  "To create a profile, please say: create profile VIN MAKE MODEL YEAR".

Definition NO_CAR_PROMPT : string :=
  "Please provide your car's VIN to look up your profile, or say 'create profile' to register a new vehicle.".

(** The test of the first [if]. *)
Definition lookup_rule (msg : string) : bool :=
  let msg_lower := PyStr.lower msg in
  PyStr.contains "lookup" msg_lower && PyStr.contains "vin" msg_lower.

(** The test of the first [elif]. *)
Definition create_rule (msg : string) : bool :=
  PyStr.contains "create profile" (PyStr.lower msg).

(** Body of the first branch. *)
Definition lookup_branch (msg : string) : M string :=
  let parts := PyStr.split (PyStr.lower msg) in
  try_except
    (i <- list_index "vin" parts ;;
     let vin_index := (i + 1)%nat in
     v <- item parts vin_index ;;
     AssistantFnc.lookup_car v)
    [ValueError; IndexError]
    (ret LOOKUP_RETRY).

(** Body of the second branch. *)
Definition create_branch (msg : string) : M string :=
  let parts := PyStr.split msg in
  try_except
    (v <- item parts 2 ;;
     mk <- item parts 3 ;;
     md <- item parts 4 ;;
     tok <- item parts 5 ;;
     y <- py_int tok ;;
     AssistantFnc.create_car v mk md y)
    [IndexError; ValueError]
    (ret CREATE_RETRY).

(** [handle_msg], up to the reply: [Ok response] is the text passed to
    [session.send_message]; [Raise e] is an exception leaving the callback
    before anything is sent. *)
Definition handle_msg (msg : string) : M string :=
  if lookup_rule msg then lookup_branch msg
  else if create_rule msg then create_branch msg
  else
    b <- AssistantFnc.has_car ;;
    if b then AssistantFnc.get_car_details
    else ret NO_CAR_PROMPT.

(** The conversation starts on an empty table with a fresh assistant. *)
Definition initial_world : world :=
  mkWorld DatabaseDriver._init_db AssistantFnc.init [].

(** The session is resolved when [has_car()] answers [True]. *)
Definition resolved (w : world) : bool :=
  AssistantFnc.truthy (d_vin (car_details w)).

Definition honda : Car := mkCar "1HGCM82633A004352" "Honda" "Accord" 2003.

(** Two cars whose VINs differ only by letter case. *)
Definition upper_twin : Car := mkCar "ABC1" "Honda" "Accord" 2003.
Definition lower_twin : Car := mkCar "abc1" "Toyota" "Camry" 2001.

(** ** Notions used to state the properties *)

(** At most one row per VIN. *)
Definition unique_vins (t : list Car) : Prop := NoDup (map vin t).

Definition stored (v : string) (t : list Car) : Prop := In v (map vin t).

(** The VIN the lookup branch extracts: the token after the first token
    equal to "vin" in the lowercased utterance.  [None] covers both the
    [ValueError] of [parts.index] and the [IndexError] of [parts[...]]. *)
Definition lookup_target (msg : string) : option string :=
  let parts := PyStr.split (PyStr.lower msg) in
  match PyStr.index "vin" parts with
  | Some i => nth_error parts (i + 1)
  | None => None
  end.

(** The four fields the create branch extracts: tokens 2 to 5 of the
    utterance as typed, the last one read by [int]. *)
Definition create_fields (msg : string) : option (string * string * string * Z) :=
  let parts := PyStr.split msg in
  match nth_error parts 2, nth_error parts 3, nth_error parts 4, nth_error parts 5 with
  | Some v, Some mk, Some md, Some tok =>
      match PyStr.int tok with
      | Some y => Some (v, mk, md, y)
      | None => None
      end
  | _, _, _, _ => None
  end.




(** The four intents of the classifier. *)
Inductive intent : Type := Lookup | Create | Query | Unknown.

(** The classifier as the specification words it: the rules are tried in
    order and the first that matches wins. *)
Definition classify (msg : string) (w : world) : intent :=
  if PyStr.contains "lookup" (PyStr.lower msg) && PyStr.contains "vin" (PyStr.lower msg)
  then Lookup
  else if PyStr.contains "create profile" (PyStr.lower msg) then Create
  else if resolved w then Query
  else Unknown.

(** What the handler does for each intent. *)
Definition behaviour (i : intent) (msg : string) : M string :=
  match i with
  | Lookup => lookup_branch msg
  | Create => create_branch msg
  | Query => AssistantFnc.get_car_details
  | Unknown => ret NO_CAR_PROMPT
  end.

Definition is_select (q : Stmt) : bool :=
  match q with
  | Select _ => true
  | Insert _ _ _ _ => false
  end.

(** Some character of [s] is an uppercase letter. *)
Fixpoint has_upper (s : string) : bool :=
  match s with
  | EmptyString => false
  | String c rest => PyStr.isupper c || has_upper rest
  end.

(** One step of the monad on known values: [ret], [raise] and the class
    test of [try_except], leaving list and string functions folded. *)
Ltac run_monad := cbv beta iota delta [ret raise existsb exn_eqb orb].

(** ** The tools of the agent and whole conversations *)

Module VehicleRegistrationAgent.

(** The [lookup_car] function tool. *)
Definition lookup_car (v : string) : M string := AssistantFnc.lookup_car v.

(** The [create_car] function tool. *)
Definition create_car (v mk md : string) (y : Z) : M string :=
  AssistantFnc.create_car v mk md y.

End VehicleRegistrationAgent.

(** The world after the handler has been called on each utterance in turn.
    An exception ends the turn it occurs in, not the process: the next
    utterance is handled in the world the failed turn left. *)
Definition run (msgs : list string) (w : world) : world :=
  fold_left (fun w' msg => snd (handle_msg msg w')) msgs w.

(** Some character of [s] is blank. *)
Fixpoint has_space (s : string) : bool :=
  match s with
  | EmptyString => false
  | String c rest => PyStr.isspace c || has_space rest
  end.

(** A word: not empty, no blank character. *)
Definition is_token (s : string) : Prop := s <> "" /\ has_space s = false.

(** The utterance in the format the handler documents,
    "create profile VIN MAKE MODEL YEAR". *)
Definition create_utterance (v mk md : string) (y : Z) : string :=
  "create profile " ++ v ++ " " ++ mk ++ " " ++ md ++ " " ++ PyStr.str_of_int y.

(** The utterance in the format the handler documents, "lookup vin VIN". *)
Definition lookup_utterance (v : string) : string := "lookup vin " ++ v.

(** The number written by a sequence of decimal digits, after [acc]. *)
Fixpoint uint_value (acc : Z) (d : Decimal.uint) : Z :=
  match d with
  | Decimal.Nil => acc
  | Decimal.D0 r => uint_value (10 * acc + 0) r
  | Decimal.D1 r => uint_value (10 * acc + 1) r
  | Decimal.D2 r => uint_value (10 * acc + 2) r
  | Decimal.D3 r => uint_value (10 * acc + 3) r
  | Decimal.D4 r => uint_value (10 * acc + 4) r
  | Decimal.D5 r => uint_value (10 * acc + 5) r
  | Decimal.D6 r => uint_value (10 * acc + 6) r
  | Decimal.D7 r => uint_value (10 * acc + 7) r
  | Decimal.D8 r => uint_value (10 * acc + 8) r
  | Decimal.D9 r => uint_value (10 * acc + 9) r
  end.

(** The replies [handle_msg] can send to utterance [msg] in world [w], each
    with the branch and the condition under which it is sent. *)
Inductive reply (msg : string) (w : world) : string -> Prop :=
| reply_lookup_retry :
    lookup_rule msg = true -> lookup_target msg = None ->
    reply msg w LOOKUP_RETRY
| reply_not_found (v : string) :
    lookup_rule msg = true -> lookup_target msg = Some v -> ~ stored v (cars w) ->
    reply msg w "Car not found"
| reply_found (c : Car) :
    lookup_rule msg = true -> lookup_target msg = Some (vin c) -> In c (cars w) ->
    reply msg w ("The car details are:" ++ PyStr.nl
                 ++ AssistantFnc.get_car_str (AssistantFnc.details_of c))
| reply_create_retry :
    lookup_rule msg = false -> create_rule msg = true -> create_fields msg = None ->
    reply msg w CREATE_RETRY
| reply_created (v mk md : string) (y : Z) :
    lookup_rule msg = false -> create_rule msg = true ->
    create_fields msg = Some (v, mk, md, y) ->
    DatabaseDriver.fits_int64 y = true -> ~ stored v (cars w) ->
    reply msg w "Car profile created!"
| reply_current :
    lookup_rule msg = false -> create_rule msg = false -> resolved w = true ->
    reply msg w ("Current car:" ++ PyStr.nl ++ AssistantFnc.get_car_str (car_details w))
| reply_no_car :
    lookup_rule msg = false -> create_rule msg = false -> resolved w = false ->
    reply msg w NO_CAR_PROMPT.

(** The cached details are those of [__init__] or of a row of the table. *)
Definition cache_ok (w : world) : Prop :=
  car_details w = AssistantFnc.init
  \/ exists r, In r (cars w) /\ car_details w = AssistantFnc.details_of r.

(** * Properties *)

(** ** The string primitives on sample inputs *)

Example split_demo :
  PyStr.split "  create profile  X1 Honda" = ["create"; "profile"; "X1"; "Honda"].
Proof. reflexivity. Qed.

Example int_demo :
  (PyStr.int "2003", PyStr.int "-1_0", PyStr.int "20x3", PyStr.int "1__0", PyStr.int "+")
  = (Some 2003, Some (-10), None, None, None).
Proof. reflexivity. Qed.

Example str_of_int_demo :
  (PyStr.str_of_int 2003, PyStr.str_of_int 0, PyStr.str_of_int (-7)) = ("2003", "0", "-7").
Proof. reflexivity. Qed.

Example lower_contains_demo :
  PyStr.lower "LookUp VIN 1HGcm" = "lookup vin 1hgcm"
  /\ PyStr.contains "create profile" "please create profile" = true
  /\ PyStr.contains "create profile" "create  profile" = false.
Proof. repeat split. Qed.

(** ** Facts about the table *)

Section Table.

Import DatabaseDriver.

Lemma Car_eta (c : Car) : mkCar (vin c) (make c) (model c) (year c) = c.
Proof. destruct c; reflexivity. Qed.

Lemma fetchone_Some v t r :
  fetchone v t = Some r -> In r t /\ vin r = v.
Proof.
  induction t as [| x t IH]; simpl; [discriminate |].
  destruct (String.eqb_spec (vin x) v) as [E | E]; intros H.
  - injection H as <-. auto.
  - destruct (IH H). auto.
Qed.

Lemma fetchone_None v t :
  fetchone v t = None <-> ~ stored v t.
Proof.
  unfold stored. induction t as [| x t IH]; simpl.
  - tauto.
  - destruct (String.eqb_spec (vin x) v) as [E | E].
    + split; [discriminate | tauto].
    + rewrite IH. tauto.
Qed.

Lemma fetchone_stored v t :
  stored v t -> exists r, fetchone v t = Some r.
Proof.
  intros H. destruct (fetchone v t) eqn:E; [eauto |].
  apply fetchone_None in E. contradiction.
Qed.

Lemma fetchone_app_miss v t t' :
  fetchone v t = None -> fetchone v (t ++ t') = fetchone v t'.
Proof.
  induction t as [| x t IH]; simpl; [reflexivity |].
  destruct (String.eqb (vin x) v); [discriminate | exact IH].
Qed.

Lemma fetchone_unique v t r :
  unique_vins t -> In r t -> vin r = v -> fetchone v t = Some r.
Proof.
  unfold unique_vins. induction t as [| x t IH]; simpl; [tauto |].
  intros U [-> | Hin] Hv.
  - subst v. rewrite String.eqb_refl. reflexivity.
  - inversion U as [| ? ? Hx U']; subst.
    destruct (String.eqb_spec (vin x) (vin r)) as [E | E].
    + exfalso. apply Hx. rewrite E. apply in_map. exact Hin.
    + apply IH; auto.
Qed.

Lemma insert_Ok v mk md y t t' :
  insert v mk md y t = Ok t' ->
  fits_int64 y = true /\ fetchone v t = None /\ t' = (t ++ [mkCar v mk md y])%list.
Proof.
  unfold insert. destruct (fits_int64 y); simpl; [| discriminate].
  destruct (fetchone v t); [discriminate |].
  intros H. injection H as <-. auto.
Qed.

Lemma insert_fresh v mk md y t :
  fits_int64 y = true -> ~ stored v t ->
  insert v mk md y t = Ok (t ++ [mkCar v mk md y])%list.
Proof.
  intros Hy Hv. apply fetchone_None in Hv.
  unfold insert. rewrite Hy, Hv. reflexivity.
Qed.

Lemma insert_duplicate v mk md y t :
  stored v t ->
  insert v mk md y t = Raise (if fits_int64 y then IntegrityError else OverflowError).
Proof.
  intros Hv. destruct (fetchone_stored _ _ Hv) as [r Hr].
  unfold insert. destruct (fits_int64 y); simpl; [rewrite Hr |]; reflexivity.
Qed.


End Table.

(** ** How the driver methods run *)

Lemma get_car_by_vin_run v w :
  DatabaseDriver.get_car_by_vin v w
  = (Ok (DatabaseDriver.fetchone v (cars w)), log_stmt (Select v) w).
Proof.
  unfold DatabaseDriver.get_car_by_vin, bind, modify, get_world, ret. simpl.
  destruct (DatabaseDriver.fetchone v (cars w)) as [r |]; [rewrite Car_eta |]; reflexivity.
Qed.

Lemma create_car_run v mk md y w :
  DatabaseDriver.create_car v mk md y w
  = match DatabaseDriver.insert v mk md y (cars w) with
    | Ok t => (Ok (Some (mkCar v mk md y)), set_cars t (log_stmt (Insert v mk md y) w))
    | Raise e => (Raise e, log_stmt (Insert v mk md y) w)
    end.
Proof.
  unfold DatabaseDriver.create_car, bind, modify, get_world, ret, raise. simpl.
  destruct (DatabaseDriver.insert v mk md y (cars w)); reflexivity.
Qed.

Lemma lookup_car_run v w :
  AssistantFnc.lookup_car v w
  = match DatabaseDriver.fetchone v (cars w) with
    | None => (Ok "Car not found", log_stmt (Select v) w)
    | Some c =>
        (Ok ("The car details are:" ++ PyStr.nl ++ AssistantFnc.get_car_str (AssistantFnc.details_of c)),
         set_details (AssistantFnc.details_of c) (log_stmt (Select v) w))
    end.
Proof.
  unfold AssistantFnc.lookup_car, bind. rewrite get_car_by_vin_run.
  destruct (DatabaseDriver.fetchone v (cars w)); reflexivity.
Qed.

Lemma assistant_create_car_run v mk md y w :
  AssistantFnc.create_car v mk md y w
  = match DatabaseDriver.insert v mk md y (cars w) with
    | Ok t =>
        (Ok "Car profile created!",
         set_details (AssistantFnc.details_of (mkCar v mk md y))
           (set_cars t (log_stmt (Insert v mk md y) w)))
    | Raise e => (Raise e, log_stmt (Insert v mk md y) w)
    end.
Proof.
  unfold AssistantFnc.create_car, bind. rewrite create_car_run.
  destruct (DatabaseDriver.insert v mk md y (cars w)); reflexivity.
Qed.

(** ** How the two keyword branches run *)

Lemma insert_raises v mk md y t e :
  DatabaseDriver.insert v mk md y t = Raise e ->
  e = IntegrityError \/ e = OverflowError.
Proof.
  unfold DatabaseDriver.insert.
  destruct (DatabaseDriver.fits_int64 y); simpl.
  - destruct (DatabaseDriver.fetchone v t); [| discriminate].
    intros H. injection H as <-. auto.
  - intros H. injection H as <-. auto.
Qed.

Lemma lookup_branch_run msg w :
  lookup_branch msg w
  = match lookup_target msg with
    | None => (Ok LOOKUP_RETRY, w)
    | Some v => AssistantFnc.lookup_car v w
    end.
Proof.
  unfold lookup_branch, lookup_target, try_except, bind, list_index, item.
  generalize (PyStr.split (PyStr.lower msg)). intros parts.
  destruct (PyStr.index "vin" parts) as [i |]; run_monad; [| reflexivity].
  destruct (nth_error parts (i + 1)) as [v |]; run_monad; [| reflexivity].
  rewrite lookup_car_run.
  destruct (DatabaseDriver.fetchone v (cars w)); reflexivity.
Qed.

Lemma create_branch_run msg w :
  create_branch msg w
  = match create_fields msg with
    | None => (Ok CREATE_RETRY, w)
    | Some (v, mk, md, y) => AssistantFnc.create_car v mk md y w
    end.
Proof.
  unfold create_branch, create_fields, try_except, bind, item, py_int.
  generalize (PyStr.split msg). intros parts.
  destruct (nth_error parts 2) as [v |]; run_monad; [| reflexivity].
  destruct (nth_error parts 3) as [mk |]; run_monad; [| reflexivity].
  destruct (nth_error parts 4) as [md |]; run_monad; [| reflexivity].
  destruct (nth_error parts 5) as [tok |]; run_monad; [| reflexivity].
  destruct (PyStr.int tok) as [y |]; run_monad; [| reflexivity].
  rewrite assistant_create_car_run.
  destruct (DatabaseDriver.insert v mk md y (cars w)) as [t | e] eqn:E; [reflexivity |].
  destruct (insert_raises _ _ _ _ _ _ E) as [-> | ->]; reflexivity.
Qed.

Lemma handle_msg_lookup msg w :
  lookup_rule msg = true -> handle_msg msg w = lookup_branch msg w.
Proof. unfold handle_msg. intros ->. reflexivity. Qed.

Lemma handle_msg_create msg w :
  lookup_rule msg = false -> create_rule msg = true ->
  handle_msg msg w = create_branch msg w.
Proof. unfold handle_msg. intros -> ->. reflexivity. Qed.

(** ** The store *)



(** C5. A VIN that is not stored is looked up as not-found; when it is not
    stored and the year fits the INTEGER column, [create_car] succeeds; and
    after any successful [create_car v mk md y] the method returned the car
    made of its four arguments, that very row is in the table, and
    [get_car_by_vin v] returns exactly [(v, mk, md, y)]. *)
Theorem C5_create_then_lookup (w : world) (v mk md : string) (y : Z) :
  (~ stored v (cars w) ->
     fst (DatabaseDriver.get_car_by_vin v w) = Ok None
     /\ (DatabaseDriver.fits_int64 y = true ->
         exists w', DatabaseDriver.create_car v mk md y w = (Ok (Some (mkCar v mk md y)), w')))
  /\ (forall res w',
        DatabaseDriver.create_car v mk md y w = (Ok res, w') ->
        res = Some (mkCar v mk md y)
        /\ In (mkCar v mk md y) (cars w')
        /\ fst (DatabaseDriver.get_car_by_vin v w') = Ok (Some (mkCar v mk md y))).
Proof.
  split.
  - intros Hv. split.
    + rewrite get_car_by_vin_run. simpl.
      apply fetchone_None in Hv. rewrite Hv. reflexivity.
    + intros Hy. rewrite create_car_run, (insert_fresh _ _ _ _ _ Hy Hv). eauto.
  - intros res w'. rewrite create_car_run.
    destruct (DatabaseDriver.insert v mk md y (cars w)) as [t | e] eqn:E; [| discriminate].
    intros H. injection H as <- <-.
    apply insert_Ok in E as (_ & Hmiss & ->).
    split; [reflexivity |]. split.
    + simpl. apply in_or_app. right. left. reflexivity.
    + rewrite get_car_by_vin_run. simpl.
      rewrite (fetchone_app_miss _ _ _ Hmiss). simpl.
      rewrite String.eqb_refl. reflexivity.
Qed.

Lemma C5_witness :
  ~ stored (vin honda) (cars initial_world)
  /\ fst (DatabaseDriver.get_car_by_vin (vin honda) initial_world) = Ok None
  /\ exists w',
       DatabaseDriver.create_car "1HGCM82633A004352" "Honda" "Accord" 2003 initial_world
       = (Ok (Some honda), w')
       /\ fst (DatabaseDriver.get_car_by_vin "1HGCM82633A004352" w') = Ok (Some honda).
Proof.
  assert (Hfresh : ~ stored (vin honda) (cars initial_world)) by (simpl; tauto).
  destruct (C5_create_then_lookup initial_world "1HGCM82633A004352" "Honda" "Accord" 2003)
    as [Hmiss Hhit].
  destruct (Hmiss Hfresh) as [Hnone Hcreate].
  destruct (Hcreate eq_refl) as [w' Hw'].
  split; [exact Hfresh |]. split; [exact Hnone |].
  exists w'. split; [exact Hw' |].
  destruct (Hhit _ _ Hw') as (_ & _ & Hget). exact Hget.
Defined.



(** ** Creation and its failure path *)

(** C10. [DatabaseDriver.create_car] either returns the car made of its
    arguments or raises; it never returns [None].  Hence
    [AssistantFnc.create_car] never answers "Failed to create car", and a
    create for a stored VIN leaves it as a raised exception (with the table
    and the cached details untouched). *)
Theorem C10_create_car_never_None (v mk md : string) (y : Z) (w : world) :
  (fst (DatabaseDriver.create_car v mk md y w) = Ok (Some (mkCar v mk md y))
   \/ exists e, fst (DatabaseDriver.create_car v mk md y w) = Raise e)
  /\ fst (DatabaseDriver.create_car v mk md y w) <> Ok None
  /\ fst (AssistantFnc.create_car v mk md y w) <> Ok "Failed to create car"
  /\ (stored v (cars w) ->
      exists e,
        AssistantFnc.create_car v mk md y w = (Raise e, log_stmt (Insert v mk md y) w)
        /\ (DatabaseDriver.fits_int64 y = true -> e = IntegrityError)).
Proof.
  rewrite create_car_run, assistant_create_car_run.
  repeat split.
  - destruct (DatabaseDriver.insert v mk md y (cars w)); simpl; eauto.
  - destruct (DatabaseDriver.insert v mk md y (cars w)); simpl; discriminate.
  - destruct (DatabaseDriver.insert v mk md y (cars w)); simpl; discriminate.
  - intros Hst. rewrite (insert_duplicate _ mk md y _ Hst).
    eexists. split; [reflexivity |]. intros ->. reflexivity.
Qed.

Lemma C10_witness :
  let w := mkWorld [honda] AssistantFnc.init [] in
  stored "1HGCM82633A004352" (cars w)
  /\ fst (AssistantFnc.create_car "1HGCM82633A004352" "Honda" "Accord" 2003 w)
     = Raise IntegrityError.
Proof.
  intros w.
  assert (Hst : stored "1HGCM82633A004352" (cars w)) by (left; reflexivity).
  split; [exact Hst |].
  destruct (C10_create_car_never_None "1HGCM82633A004352" "Honda" "Accord" 2003 w)
    as (_ & _ & _ & H).
  destruct (H Hst) as (e & Hrun & He).
  rewrite Hrun. simpl. rewrite (He eq_refl). reflexivity.
Defined.

(** The create branch on a stored VIN, for any utterance: the exception of
    the driver is not among the classes the handler catches. *)
Lemma handle_msg_create_duplicate msg w v mk md y :
  lookup_rule msg = false -> create_rule msg = true ->
  create_fields msg = Some (v, mk, md, y) ->
  stored v (cars w) ->
  handle_msg msg w
  = (Raise (if DatabaseDriver.fits_int64 y then IntegrityError else OverflowError),
     log_stmt (Insert v mk md y) w).
Proof.
  intros Hl Hc Hf Hst.
  rewrite (handle_msg_create _ _ Hl Hc), create_branch_run, Hf.
  rewrite assistant_create_car_run, (insert_duplicate _ mk md y _ Hst). reflexivity.
Qed.

(** C2, on the code.  With the Honda already stored, the utterance that
    creates it again makes [handle_msg] raise [IntegrityError]: no reply is
    produced, although the rows and the cached details are left as they
    were. *)
Theorem C2_duplicate_create_raises :
  let w := mkWorld [honda] (AssistantFnc.details_of honda) [] in
  let msg := "create profile 1HGCM82633A004352 Honda Accord 2003" in
  stored "1HGCM82633A004352" (cars w)
  /\ lookup_rule msg = false
  /\ create_rule msg = true
  /\ create_fields msg = Some ("1HGCM82633A004352", "Honda", "Accord", 2003)
  /\ handle_msg msg w
     = (Raise IntegrityError,
        mkWorld [honda] (AssistantFnc.details_of honda)
          [Insert "1HGCM82633A004352" "Honda" "Accord" 2003]).
Proof.
  cbv zeta. split; [left; reflexivity |]. repeat split; vm_compute; reflexivity.
Qed.

(** C1, on the code.  From the initial world the create utterance stores
    the Honda, answers "Car profile created!" and resolves the session; the
    lookup utterance that follows asks the store for the lowercased token
    [1hgcm82633a004352] and answers "Car not found". *)
Theorem C1_round_trip_on_code :
  let create := "create profile 1HGCM82633A004352 Honda Accord 2003" in
  let lookup := "lookup vin 1HGCM82633A004352" in
  let w1 := snd (handle_msg create initial_world) in
  fst (handle_msg create initial_world) = Ok "Car profile created!"
  /\ cars w1 = [honda]
  /\ resolved initial_world = false
  /\ resolved w1 = true
  /\ lookup_target lookup = Some "1hgcm82633a004352"
  /\ handle_msg lookup w1
     = (Ok "Car not found", log_stmt (Select "1hgcm82633a004352") w1).
Proof.
  cbv zeta. repeat split; vm_compute; reflexivity.
Qed.

(** ** Malformed utterances and lookup misses *)

(** C7. An utterance handled by the create branch that has fewer than six
    tokens, or whose sixth token is refused by [int], is answered with the
    retry-format prompt and leaves the whole world (rows, cached details,
    trace of statements) as it was. *)
Theorem C7_malformed_create (msg : string) (w : world) :
  lookup_rule msg = false ->
  create_rule msg = true ->
  (length (PyStr.split msg) < 6)%nat
  \/ (exists tok, nth_error (PyStr.split msg) 5 = Some tok /\ PyStr.int tok = None) ->
  handle_msg msg w = (Ok CREATE_RETRY, w).
Proof.
  intros Hl Hc Hbad.
  rewrite (handle_msg_create _ _ Hl Hc), create_branch_run.
  assert (Hf : create_fields msg = None).
  { unfold create_fields. destruct Hbad as [Hlen | (tok & Htok & Hint)].
    - assert (H5 : nth_error (PyStr.split msg) 5 = None)
        by (apply nth_error_None; lia).
      rewrite H5.
      destruct (nth_error (PyStr.split msg) 2); [| reflexivity].
      destruct (nth_error (PyStr.split msg) 3); [| reflexivity].
      destruct (nth_error (PyStr.split msg) 4); reflexivity.
    - rewrite Htok, Hint.
      destruct (nth_error (PyStr.split msg) 2); [| reflexivity].
      destruct (nth_error (PyStr.split msg) 3); [| reflexivity].
      destruct (nth_error (PyStr.split msg) 4); reflexivity. }
  rewrite Hf. reflexivity.
Qed.

Lemma C7_witness :
  handle_msg "create profile 123" initial_world = (Ok CREATE_RETRY, initial_world)
  /\ handle_msg "create profile X1 Honda Accord 20o3" initial_world
     = (Ok CREATE_RETRY, initial_world).
Proof.
  split.
  - apply (C7_malformed_create "create profile 123" initial_world);
      [reflexivity | reflexivity | left; vm_compute; lia].
  - apply (C7_malformed_create "create profile X1 Honda Accord 20o3" initial_world);
      [reflexivity | reflexivity | right; exists "20o3"; split; reflexivity].
Defined.

(** C8. When the VIN extracted by the lookup branch is not stored, the
    answer is "Car not found"; the rows and the cached details are exactly
    those before the turn, so the session is resolved after the turn if and
    only if it was before.  Only the trace records the query. *)
Theorem C8_lookup_miss (msg : string) (w : world) (v : string) :
  lookup_rule msg = true ->
  lookup_target msg = Some v ->
  ~ stored v (cars w) ->
  handle_msg msg w = (Ok "Car not found", log_stmt (Select v) w)
  /\ car_details (snd (handle_msg msg w)) = car_details w
  /\ resolved (snd (handle_msg msg w)) = resolved w
  /\ cars (snd (handle_msg msg w)) = cars w.
Proof.
  intros Hl Ht Hv.
  assert (E : handle_msg msg w = (Ok "Car not found", log_stmt (Select v) w)).
  { rewrite (handle_msg_lookup _ _ Hl), lookup_branch_run, Ht, lookup_car_run.
    apply fetchone_None in Hv. rewrite Hv. reflexivity. }
  rewrite E. repeat split.
Qed.

Lemma C8_witness :
  let msg := "lookup vin 1HGCM82633A004352" in
  let w := mkWorld [honda] (AssistantFnc.details_of honda) [] in
  handle_msg msg initial_world
  = (Ok "Car not found", log_stmt (Select "1hgcm82633a004352") initial_world)
  /\ resolved (snd (handle_msg msg initial_world)) = false
  /\ car_details (snd (handle_msg msg w)) = AssistantFnc.details_of honda.
Proof.
  intros msg w.
  assert (Hfresh : forall t, t = [] \/ t = [honda] -> ~ stored "1hgcm82633a004352" t).
  { intros t [-> | ->]; simpl; [tauto |]. intros [H | []]. discriminate H. }
  destruct (C8_lookup_miss msg initial_world "1hgcm82633a004352" eq_refl eq_refl
              (Hfresh _ (or_introl eq_refl))) as (H1 & _ & H3 & _).
  destruct (C8_lookup_miss msg w "1hgcm82633a004352" eq_refl eq_refl
              (Hfresh _ (or_intror eq_refl))) as (_ & H2 & _ & _).
  split; [exact H1 |]. split; [exact H3 | exact H2].
Defined.

(** ** Positions of tokens *)

Lemma index_absent x l : ~ In x l -> PyStr.index x l = None.
Proof.
  induction l as [| y l IH]; simpl; [reflexivity |].
  intros H. destruct (String.eqb_spec y x) as [E | E]; [tauto |].
  rewrite IH; [reflexivity | tauto].
Qed.

Lemma index_first x pre post :
  ~ In x pre -> PyStr.index x (pre ++ x :: post) = Some (length pre).
Proof.
  induction pre as [| y pre IH]; simpl; intros H.
  - rewrite String.eqb_refl. reflexivity.
  - destruct (String.eqb_spec y x) as [E | E]; [tauto |].
    rewrite IH; [reflexivity | tauto].
Qed.

(** C6, as amended.  An utterance handled by the lookup branch whose tokens
    do not contain "vin", or in which the first occurrence of the token
    "vin" (the one [parts.index] finds) is the last token, is answered with
    the retry prompt: no exception leaves the handler, and the world is
    returned as it was, trace of statements included, so the store was not
    reached. *)
Theorem C6_malformed_lookup (msg : string) (w : world) :
  lookup_rule msg = true ->
  (~ In "vin" (PyStr.split (PyStr.lower msg))
   \/ exists pre, PyStr.split (PyStr.lower msg) = (pre ++ ["vin"])%list /\ ~ In "vin" pre) ->
  handle_msg msg w = (Ok LOOKUP_RETRY, w).
Proof.
  intros Hl Hbad.
  rewrite (handle_msg_lookup _ _ Hl), lookup_branch_run.
  assert (Ht : lookup_target msg = None).
  { unfold lookup_target. destruct Hbad as [Habs | (pre & Hparts & Hpre)].
    - rewrite (index_absent _ _ Habs). reflexivity.
    - rewrite Hparts, (index_first _ _ [] Hpre).
      apply nth_error_None. rewrite length_app. simpl. lia. }
  rewrite Ht. reflexivity.
Qed.

Lemma C6_witness :
  handle_msg "please lookup my VIN" initial_world = (Ok LOOKUP_RETRY, initial_world)
  /\ handle_msg "lookup the vinyl car" initial_world = (Ok LOOKUP_RETRY, initial_world).
Proof.
  split.
  - apply (C6_malformed_lookup "please lookup my VIN" initial_world); [reflexivity |].
    right. exists ["please"; "lookup"; "my"]. split; [reflexivity |].
    simpl. intros [H | [H | [H | []]]]; discriminate H.
  - apply (C6_malformed_lookup "lookup the vinyl car" initial_world); [reflexivity |].
    left. simpl. intros [H | [H | [H | [H | []]]]]; discriminate H.
Defined.

(** The statement C6 makes for every utterance ending in "vin" fails when
    "vin" also occurs earlier: in "lookup vin abc1 vin" the last token is
    "vin", yet the handler takes the token after the first "vin", queries
    the store for it and, the row being there, caches it and answers with
    its details. *)
Lemma C6_counterexample :
  let msg := "lookup vin abc1 vin" in
  let w := mkWorld [lower_twin] AssistantFnc.init [] in
  lookup_rule msg = true
  /\ PyStr.split (PyStr.lower msg) = (["lookup"; "vin"; "abc1"] ++ ["vin"])%list
  /\ fst (handle_msg msg w) <> Ok LOOKUP_RETRY
  /\ executed (snd (handle_msg msg w)) = [Select "abc1"]
  /\ car_details w = AssistantFnc.init
  /\ car_details (snd (handle_msg msg w)) = AssistantFnc.details_of lower_twin.
Proof.
  cbv zeta. split; [reflexivity |]. split; [reflexivity |].
  split; [vm_compute; discriminate |]. repeat split.
Qed.

(** ** Intent precedence *)

Lemma handle_msg_dispatch msg w :
  handle_msg msg w = behaviour (classify msg w) msg w.
Proof.
  unfold handle_msg, classify, lookup_rule, create_rule.
  destruct (PyStr.contains "lookup" (PyStr.lower msg) && PyStr.contains "vin" (PyStr.lower msg));
    [reflexivity |].
  destruct (PyStr.contains "create profile" (PyStr.lower msg)); [reflexivity |].
  unfold AssistantFnc.has_car, bind, get_world, ret, resolved. simpl.
  destruct (AssistantFnc.truthy (d_vin (car_details w))); reflexivity.
Qed.

Lemma lookup_branch_frame msg w :
  cars (snd (lookup_branch msg w)) = cars w
  /\ exists added,
       executed (snd (lookup_branch msg w)) = (executed w ++ added)%list
       /\ forallb is_select added = true.
Proof.
  rewrite lookup_branch_run.
  destruct (lookup_target msg) as [v |].
  - rewrite lookup_car_run.
    destruct (DatabaseDriver.fetchone v (cars w)); simpl;
      (split; [reflexivity | exists [Select v]; split; reflexivity]).
  - simpl. split; [reflexivity |]. exists []. rewrite app_nil_r. split; reflexivity.
Qed.

(** C3. Every utterance is given exactly one of the four intents, and the
    handler does what that intent prescribes.  An utterance whose lowercase
    form contains "lookup", "vin" and the phrase "create profile" is a
    Lookup: the handler runs the lookup branch, so the rows are unchanged
    and no INSERT is sent. *)
Theorem C3_intent_precedence (msg : string) (w : world) :
  (exists i, classify msg w = i
             /\ (forall j, classify msg w = j -> j = i)
             /\ handle_msg msg w = behaviour i msg w)
  /\ (PyStr.contains "lookup" (PyStr.lower msg) = true ->
      PyStr.contains "vin" (PyStr.lower msg) = true ->
      PyStr.contains "create profile" (PyStr.lower msg) = true ->
      classify msg w = Lookup
      /\ classify msg w <> Create
      /\ handle_msg msg w = lookup_branch msg w
      /\ cars (snd (handle_msg msg w)) = cars w
      /\ exists added,
           executed (snd (handle_msg msg w)) = (executed w ++ added)%list
           /\ forallb is_select added = true).
Proof.
  split.
  - exists (classify msg w). split; [reflexivity |]. split.
    + intros j <-. reflexivity.
    + apply handle_msg_dispatch.
  - intros H1 H2 _.
    assert (Hc : classify msg w = Lookup).
    { unfold classify. rewrite H1, H2. reflexivity. }
    assert (Hh : handle_msg msg w = lookup_branch msg w).
    { rewrite handle_msg_dispatch, Hc. reflexivity. }
    split; [exact Hc |]. split; [rewrite Hc; discriminate |].
    split; [exact Hh |]. rewrite Hh. apply lookup_branch_frame.
Qed.

Lemma C3_witness :
  let msg := "Lookup VIN abc1 or create profile abc1 Honda Accord 2003" in
  classify msg initial_world = Lookup
  /\ handle_msg msg initial_world
     = (Ok "Car not found", log_stmt (Select "abc1") initial_world).
Proof.
  intros msg.
  destruct (C3_intent_precedence msg initial_world) as [_ H].
  destruct (H eq_refl eq_refl eq_refl) as (Hc & _ & Hh & _).
  split; [exact Hc |]. rewrite Hh. reflexivity.
Defined.

(** ** Letter case of the looked-up VIN *)

Lemma lower_char_not_upper c : PyStr.isupper (PyStr.lower_char c) = false.
Proof. destruct c as [[] [] [] [] [] [] [] []]; reflexivity. Qed.

Lemma has_upper_lower s : has_upper (PyStr.lower s) = false.
Proof.
  induction s as [| c s IH]; simpl; [reflexivity |].
  rewrite lower_char_not_upper, IH. reflexivity.
Qed.

Lemma has_upper_app s t : has_upper (s ++ t) = has_upper s || has_upper t.
Proof.
  induction s as [| c s IH]; simpl; [reflexivity |].
  rewrite IH, orb_assoc. reflexivity.
Qed.

Lemma emit_no_upper tok toks :
  has_upper tok = false ->
  Forall (fun t => has_upper t = false) toks ->
  Forall (fun t => has_upper t = false) (PyStr.emit tok toks).
Proof.
  intros Ht Hs. destruct tok; simpl; [exact Hs |]. constructor; assumption.
Qed.

Lemma split_from_no_upper s : forall tok,
  has_upper tok = false -> has_upper s = false ->
  Forall (fun t => has_upper t = false) (PyStr.split_from tok s).
Proof.
  induction s as [| c s IH]; intros tok Ht Hs; simpl.
  - apply emit_no_upper; [exact Ht | constructor].
  - simpl in Hs. apply orb_false_iff in Hs as [Hc Hs].
    destruct (PyStr.isspace c).
    + apply emit_no_upper; [exact Ht |]. apply IH; [reflexivity | exact Hs].
    + apply IH; [| exact Hs].
      rewrite has_upper_app, Ht. simpl. rewrite Hc. reflexivity.
Qed.

Lemma lookup_target_token msg v :
  lookup_target msg = Some v ->
  In v (PyStr.split (PyStr.lower msg)) /\ has_upper v = false.
Proof.
  unfold lookup_target.
  destruct (PyStr.index "vin" (PyStr.split (PyStr.lower msg))) as [i |]; [| discriminate].
  intros H. apply nth_error_In in H. split; [exact H |].
  assert (F : Forall (fun t => has_upper t = false) (PyStr.split (PyStr.lower msg))).
  { apply split_from_no_upper; [reflexivity | apply has_upper_lower]. }
  rewrite Forall_forall in F. apply F, H.
Qed.

Lemma cut_at_newline a : forall b x y,
  has_space a = false -> has_space b = false ->
  a ++ PyStr.nl ++ x = b ++ PyStr.nl ++ y -> a = b /\ x = y.
Proof.
  induction a as [| c a IH]; intros [| d b] x y Ha Hb E; simpl in *.
  - injection E as E. auto.
  - injection E as Hd _. subst d. discriminate Hb.
  - injection E as Hc _. subst c. discriminate Ha.
  - injection E as -> E.
    apply orb_false_iff in Ha as [_ Ha]. apply orb_false_iff in Hb as [_ Hb].
    destruct (IH _ _ _ Ha Hb E) as [-> ->]. auto.
Qed.

Lemma rendering_vin c1 c2 :
  has_space (vin c1) = false -> has_space (vin c2) = false ->
  AssistantFnc.get_car_str (AssistantFnc.details_of c1)
  = AssistantFnc.get_car_str (AssistantFnc.details_of c2) ->
  vin c1 = vin c2.
Proof.
  intros H1 H2 E.
  unfold AssistantFnc.get_car_str, AssistantFnc.items, AssistantFnc.details_of,
    PyStr.join in E.
  cbn [map fst snd String.concat CarDetails_value AssistantFnc.format
       d_vin d_make d_model d_year] in E.
  change ("vin: " ++ ?a)
    with (String "v" (String "i" (String "n" (String ":" (String " " a))))) in E.
  injection E as E.
  apply (cut_at_newline _ _ _ _ H1 H2) in E as [E _]. exact E.
Qed.

Lemma found_reply_inj x y :
  @Ok string ("The car details are:" ++ PyStr.nl ++ x)
  = Ok ("The car details are:" ++ PyStr.nl ++ y) ->
  x = y.
Proof. intros E. injection E as E. exact E. Qed.

Lemma details_of_inj c1 c2 :
  AssistantFnc.details_of c1 = AssistantFnc.details_of c2 -> c1 = c2.
Proof.
  destruct c1, c2. unfold AssistantFnc.details_of. simpl.
  intros E. injection E as -> -> -> ->. reflexivity.
Qed.

Lemma lookup_token_no_space msg v :
  lookup_target msg = Some v -> has_space v = false.
Proof.
  unfold lookup_target.
  destruct (PyStr.index "vin" (PyStr.split (PyStr.lower msg))) as [i |]; [| discriminate].
  intros H. apply nth_error_In in H.
  assert (F : forall s tok, has_space tok = false ->
                Forall (fun t => has_space t = false) (PyStr.split_from tok s)).
  { induction s as [| c s IH]; intros tok Ht; simpl.
    - destruct tok; simpl; [constructor | constructor; [exact Ht | constructor]].
    - destruct (PyStr.isspace c) eqn:Hc.
      + specialize (IH "" eq_refl).
        destruct tok; simpl; [exact IH | constructor; [exact Ht | exact IH]].
      + apply IH. clear IH. induction tok as [| x tok IHt]; simpl in *.
        * rewrite Hc. reflexivity.
        * apply orb_false_iff in Ht as [Hx Ht]. rewrite Hx, (IHt Ht). reflexivity. }
  specialize (F (PyStr.lower msg) "" eq_refl).
  rewrite Forall_forall in F. apply F, H.
Qed.

(** C9, as amended.  In the lookup branch either the retry prompt is
    answered without reaching the store, or the VIN passed to the store is
    a token [v] of the lowercased utterance, free of uppercase letters, and
    the single statement sent is the SELECT for [v].  The store compares
    VINs exactly, so a stored row [r] whose VIN has an uppercase letter is
    never returned: it is never the row fetched, the turn never makes it
    the cached car, and, when its VIN has no blank character, the reply is
    never its rendering.  The answer is "Car not found" when [v] is not a
    stored VIN; when [v] is the VIN of a row [r'], the reply is the
    rendering of that other, lowercase row, which is also the one
    cached. *)
Theorem C9_lookup_never_returns_uppercase_vin (msg : string) (w : world) :
  lookup_rule msg = true ->
  match lookup_target msg with
  | None => handle_msg msg w = (Ok LOOKUP_RETRY, w)
  | Some v =>
      In v (PyStr.split (PyStr.lower msg))
      /\ has_upper v = false
      /\ handle_msg msg w = AssistantFnc.lookup_car v w
      /\ executed (snd (handle_msg msg w)) = (executed w ++ [Select v])%list
      /\ (forall r, In r (cars w) -> has_upper (vin r) = true ->
            DatabaseDriver.fetchone v (cars w) <> Some r
            /\ fst (DatabaseDriver.get_car_by_vin v w) <> Ok (Some r))
      /\ (~ stored v (cars w) ->
            handle_msg msg w = (Ok "Car not found", log_stmt (Select v) w))
      /\ (forall r', DatabaseDriver.fetchone v (cars w) = Some r' ->
            has_upper (vin r') = false
            /\ car_details (snd (handle_msg msg w)) = AssistantFnc.details_of r'
            /\ In r' (cars w)
            /\ vin r' = v
            /\ handle_msg msg w
               = (Ok ("The car details are:" ++ PyStr.nl
                      ++ AssistantFnc.get_car_str (AssistantFnc.details_of r')),
                  set_details (AssistantFnc.details_of r') (log_stmt (Select v) w))
            /\ (forall r, In r (cars w) -> has_upper (vin r) = true -> r' <> r))
  end
  /\ (forall r, In r (cars w) -> has_upper (vin r) = true ->
        (car_details (snd (handle_msg msg w)) = AssistantFnc.details_of r ->
         car_details w = AssistantFnc.details_of r)
        /\ (has_space (vin r) = false ->
            fst (handle_msg msg w)
            <> Ok ("The car details are:" ++ PyStr.nl
                   ++ AssistantFnc.get_car_str (AssistantFnc.details_of r)))).
Proof.
  intros Hl. rewrite (handle_msg_lookup _ _ Hl), lookup_branch_run.
  destruct (lookup_target msg) as [v |] eqn:Ht.
  2:{ split; [reflexivity |]. intros r _ _. split; [tauto |].
      intros _ E. cbn [fst] in E. injection E as E. vm_compute in E. discriminate E. }
  destruct (lookup_target_token _ _ Ht) as [Hin Hlow].
  pose proof (lookup_token_no_space _ _ Ht) as Hsp.
  assert (Hfetch : forall r, DatabaseDriver.fetchone v (cars w) = Some r ->
                     In r (cars w) /\ vin r = v /\ has_upper (vin r) = false).
  { intros r Hr. apply fetchone_Some in Hr as [Hr Hv].
    split; [exact Hr |]. split; [exact Hv |]. rewrite Hv. exact Hlow. }
  rewrite lookup_car_run, get_car_by_vin_run. split.
  - split; [exact Hin |]. split; [exact Hlow |]. split; [reflexivity |]. split.
    + destruct (DatabaseDriver.fetchone v (cars w)); reflexivity.
    + split; [| split].
      * intros r _ Hup.
        assert (Hne : DatabaseDriver.fetchone v (cars w) <> Some r).
        { intros Hr. apply Hfetch in Hr as (_ & _ & Hr). congruence. }
        split; [exact Hne |]. simpl. congruence.
      * intros Hv. apply fetchone_None in Hv. rewrite Hv. reflexivity.
      * intros r' Hr'. destruct (Hfetch _ Hr') as (Hr'in & Hr'v & Hr'low).
        rewrite Hr'. cbn [fst snd car_details set_details].
        repeat split; auto. intros r _ Hup ->. congruence.
  - intros r Hr Hup.
    destruct (DatabaseDriver.fetchone v (cars w)) as [r' |] eqn:Hf.
    + destruct (Hfetch _ eq_refl) as (_ & Hr'v & Hr'low).
      cbn [fst snd car_details set_details]. split.
      * intros E. apply details_of_inj in E. subst r'. congruence.
      * intros Hs E. apply found_reply_inj in E.
        assert (Hv' : has_space (vin r') = false) by (rewrite Hr'v; exact Hsp).
        apply (rendering_vin r' r Hv' Hs) in E. congruence.
    + cbn [fst snd]. split; [tauto |].
      intros _ E. injection E as E. vm_compute in E. discriminate E.
Qed.

Lemma C9_witness :
  let msg := "lookup vin 1HGCM82633A004352" in
  let w := mkWorld [honda] AssistantFnc.init [] in
  let msg2 := "lookup vin ABC1" in
  let w2 := mkWorld [upper_twin; lower_twin] AssistantFnc.init [] in
  has_upper (vin honda) = true
  /\ lookup_target msg = Some "1hgcm82633a004352"
  /\ DatabaseDriver.fetchone "1hgcm82633a004352" (cars w) <> Some honda
  /\ handle_msg msg w = (Ok "Car not found", log_stmt (Select "1hgcm82633a004352") w)
  /\ handle_msg msg2 w2
     = (Ok ("The car details are:" ++ PyStr.nl
            ++ AssistantFnc.get_car_str (AssistantFnc.details_of lower_twin)),
        set_details (AssistantFnc.details_of lower_twin) (log_stmt (Select "abc1") w2))
  /\ fst (handle_msg msg2 w2)
     <> Ok ("The car details are:" ++ PyStr.nl
            ++ AssistantFnc.get_car_str (AssistantFnc.details_of upper_twin)).
Proof.
  intros msg w msg2 w2.
  pose proof (C9_lookup_never_returns_uppercase_vin msg w eq_refl) as [H _].
  pose proof (C9_lookup_never_returns_uppercase_vin msg2 w2 eq_refl) as [H2 K2].
  change (lookup_target msg) with (Some "1hgcm82633a004352") in H.
  change (lookup_target msg2) with (Some "abc1") in H2.
  destruct H as (_ & _ & _ & _ & Hrow & Hmiss & _).
  destruct H2 as (_ & _ & _ & _ & _ & _ & Hhit).
  split; [reflexivity |]. split; [reflexivity |]. split; [| split; [| split]].
  - exact (proj1 (Hrow honda (or_introl eq_refl) eq_refl)).
  - apply Hmiss. simpl. intros [H | []]. discriminate H.
  - destruct (Hhit lower_twin eq_refl) as (_ & _ & _ & _ & E & _). exact E.
  - exact (proj2 (K2 upper_twin (or_introl eq_refl) eq_refl) eq_refl).
Defined.

(** Why the VIN of [r] must hold no blank for the reply to differ from its
    rendering: a VIN with a line break in it, which only the function tool
    can store, lets two different cars be rendered alike. *)
Example rendering_collision :
  let r := mkCar ("abc" ++ PyStr.nl ++ "make: X") "m" "md" 1 in
  let r' := mkCar "abc" ("X" ++ PyStr.nl ++ "make: m") "md" 1 in
  r <> r'
  /\ has_upper (vin r) = true
  /\ AssistantFnc.get_car_str (AssistantFnc.details_of r)
     = AssistantFnc.get_car_str (AssistantFnc.details_of r').
Proof.
  cbv zeta. split; [discriminate |]. split; reflexivity.
Qed.

(** The statement C9 makes about the answer fails when the lowercased VIN
    is itself stored: with [ABC1] and [abc1] both in the table, asking for
    [ABC1] is handled by the lookup branch and is answered with the details
    of [abc1], not with "Car not found". *)
Lemma C9_counterexample :
  let msg := "lookup vin ABC1" in
  let w := mkWorld [upper_twin; lower_twin] AssistantFnc.init [] in
  lookup_rule msg = true
  /\ In upper_twin (cars w)
  /\ has_upper (vin upper_twin) = true
  /\ lookup_target msg = Some (PyStr.lower (vin upper_twin))
  /\ fst (handle_msg msg w)
     = Ok ("The car details are:" ++ PyStr.nl
           ++ AssistantFnc.get_car_str (AssistantFnc.details_of lower_twin))
  /\ fst (handle_msg msg w) <> Ok "Car not found".
Proof.
  cbv zeta. split; [reflexivity |]. split; [left; reflexivity |].
  split; [reflexivity |]. split; [reflexivity |].
  split; [vm_compute; reflexivity | vm_compute; discriminate].
Qed.

(** * Further properties of the handler *)

(** ** The fall-through branches and the set of replies *)

Lemma fallthrough_run (msg : string) (w : world) :
  lookup_rule msg = false ->
  create_rule msg = false ->
  handle_msg msg w
  = (Ok (if resolved w
         then "Current car:" ++ PyStr.nl ++ AssistantFnc.get_car_str (car_details w)
         else NO_CAR_PROMPT), w).
Proof.
  intros Hl Hc. unfold handle_msg. rewrite Hl, Hc.
  unfold AssistantFnc.has_car, AssistantFnc.get_car_details, bind, get_world, ret, resolved.
  cbv beta iota.
  destruct (AssistantFnc.truthy (d_vin (car_details w))) eqn:E;
    cbv beta iota; [rewrite E |]; reflexivity.
Qed.

(** An utterance that triggers neither keyword rule is answered from the
    cache alone: with the details of the current car when the session is
    resolved, with the prompt for a VIN otherwise.  The world is returned
    as it was; the store is not reached. *)
Theorem fallthrough_reply (msg : string) (w : world) :
  lookup_rule msg = false ->
  create_rule msg = false ->
  handle_msg msg w
  = (Ok (if resolved w
         then "Current car:" ++ PyStr.nl ++ AssistantFnc.get_car_str (car_details w)
         else NO_CAR_PROMPT), w).
Proof. exact (fallthrough_run msg w). Qed.

Lemma fallthrough_reply_witness :
  let msg := "what can you tell me about this car" in
  let w := mkWorld [honda] (AssistantFnc.details_of honda) [] in
  handle_msg msg initial_world = (Ok NO_CAR_PROMPT, initial_world)
  /\ fst (handle_msg msg w)
     = Ok ("Current car:" ++ PyStr.nl ++ AssistantFnc.get_car_str (AssistantFnc.details_of honda))
  /\ snd (handle_msg msg w) = w.
Proof.
  intros msg w.
  pose proof (fallthrough_reply msg initial_world eq_refl eq_refl) as H0.
  pose proof (fallthrough_reply msg w eq_refl eq_refl) as H1.
  split; [exact H0 |]. rewrite H1. split; reflexivity.
Defined.

Lemma reply_not_dead msg w r :
  reply msg w r -> r <> "No car profile set yet." /\ r <> "Failed to create car".
Proof.
  intros H. destruct H; split; intros E; vm_compute in E; discriminate E.
Qed.

(** Every reply of the handler has one of seven forms, each sent by one
    branch under one condition: from the lookup branch the retry prompt
    (no VIN extracted), "Car not found" (extracted VIN not stored) or the
    rendering of the stored row with the extracted VIN; from the create
    branch the retry-format prompt (fields not read) or the confirmation
    (fields read, year fits 64 bits, VIN not stored); otherwise the
    rendering of the cached details (session resolved) or the prompt for a
    VIN (not resolved).  The two messages "No car profile set yet." and
    "Failed to create car", which the assistant can produce, are never
    sent by [handle_msg]. *)
Theorem handle_msg_replies (msg : string) (w : world) (r : string) :
  fst (handle_msg msg w) = Ok r ->
  reply msg w r /\ r <> "No car profile set yet." /\ r <> "Failed to create car".
Proof.
  intros H.
  assert (R : reply msg w r).
  { destruct (lookup_rule msg) eqn:Hl.
    - rewrite (handle_msg_lookup _ _ Hl), lookup_branch_run in H.
      destruct (lookup_target msg) as [v |] eqn:Ht.
      + rewrite lookup_car_run in H.
        destruct (DatabaseDriver.fetchone v (cars w)) as [c |] eqn:Hf;
          simpl in H; injection H as <-.
        * apply fetchone_Some in Hf as [Hin Hv]. subst v.
          apply reply_found; assumption.
        * apply fetchone_None in Hf. apply (reply_not_found msg w v); assumption.
      + simpl in H. injection H as <-. apply reply_lookup_retry; assumption.
    - destruct (create_rule msg) eqn:Hc.
      + rewrite (handle_msg_create _ _ Hl Hc), create_branch_run in H.
        destruct (create_fields msg) as [[[[v mk] md] y] |] eqn:Hf.
        * rewrite assistant_create_car_run in H.
          destruct (DatabaseDriver.insert v mk md y (cars w)) eqn:Hi;
            simpl in H; [injection H as <- | discriminate H].
          apply insert_Ok in Hi as (Hy & Hmiss & _). apply fetchone_None in Hmiss.
          apply (reply_created msg w v mk md y); assumption.
        * simpl in H. injection H as <-. apply reply_create_retry; assumption.
      + rewrite (fallthrough_run _ _ Hl Hc) in H. simpl in H.
        destruct (resolved w) eqn:Hr; injection H as <-;
          [apply reply_current | apply reply_no_car]; assumption. }
  split; [exact R | apply (reply_not_dead msg w), R].
Qed.

Lemma handle_msg_replies_witness :
  reply "lookup vin abc1" initial_world "Car not found"
  /\ "Car not found" <> "No car profile set yet.".
Proof.
  destruct (handle_msg_replies "lookup vin abc1" initial_world "Car not found" eq_refl)
    as (R & N & _).
  split; [exact R | exact N].
Defined.

(** ** Exceptions leaving the handler *)

(** [handle_msg] raises exactly when the create branch has read its four
    fields and the INSERT fails: [OverflowError] when the year does not
    fit a 64-bit INTEGER, [IntegrityError] when it fits and the VIN is
    already stored.  [ValueError] and [IndexError] never leave the
    handler.  When it raises, rows and cached details are as before. *)
Theorem handle_msg_raises (msg : string) (w : world) (e : exn) :
  (fst (handle_msg msg w) = Raise e <->
   lookup_rule msg = false /\ create_rule msg = true
   /\ exists v mk md y,
        create_fields msg = Some (v, mk, md, y)
        /\ (DatabaseDriver.fits_int64 y = false /\ e = OverflowError
            \/ DatabaseDriver.fits_int64 y = true /\ stored v (cars w)
               /\ e = IntegrityError))
  /\ (fst (handle_msg msg w) = Raise e ->
      e <> ValueError /\ e <> IndexError
      /\ cars (snd (handle_msg msg w)) = cars w
      /\ car_details (snd (handle_msg msg w)) = car_details w).
Proof.
  assert (Hmain : fst (handle_msg msg w) = Raise e ->
                  (lookup_rule msg = false /\ create_rule msg = true
                   /\ exists v mk md y,
                        create_fields msg = Some (v, mk, md, y)
                        /\ (DatabaseDriver.fits_int64 y = false /\ e = OverflowError
                            \/ DatabaseDriver.fits_int64 y = true /\ stored v (cars w)
                               /\ e = IntegrityError))
                  /\ cars (snd (handle_msg msg w)) = cars w
                  /\ car_details (snd (handle_msg msg w)) = car_details w).
  { destruct (lookup_rule msg) eqn:Hl.
    - rewrite (handle_msg_lookup _ _ Hl), lookup_branch_run.
      destruct (lookup_target msg) as [v |]; [| discriminate].
      rewrite lookup_car_run.
      destruct (DatabaseDriver.fetchone v (cars w)); discriminate.
    - destruct (create_rule msg) eqn:Hc.
      + rewrite (handle_msg_create _ _ Hl Hc), create_branch_run.
        destruct (create_fields msg) as [[[[v mk] md] y] |]; [| discriminate].
        rewrite assistant_create_car_run. unfold DatabaseDriver.insert.
        destruct (DatabaseDriver.fits_int64 y) eqn:Hy; simpl.
        * destruct (DatabaseDriver.fetchone v (cars w)) as [c |] eqn:Hf; simpl;
            [| discriminate].
          intros H. injection H as <-.
          split; [| split; reflexivity].
          split; [reflexivity |]. split; [reflexivity |].
          exists v, mk, md, y. split; [reflexivity |]. right.
          split; [exact Hy |]. split; [| reflexivity].
          apply fetchone_Some in Hf as [Hin <-]. apply in_map, Hin.
        * intros H. injection H as <-.
          split; [| split; reflexivity].
          split; [reflexivity |]. split; [reflexivity |].
          exists v, mk, md, y. split; [reflexivity |]. left.
          split; [exact Hy | reflexivity].
      + rewrite (fallthrough_run _ _ Hl Hc). discriminate. }
  split; [split |].
  - intros H. apply Hmain, H.
  - intros (Hl & Hc & v & mk & md & y & Hf & Hcase).
    rewrite (handle_msg_create _ _ Hl Hc), create_branch_run, Hf,
      assistant_create_car_run.
    unfold DatabaseDriver.insert.
    destruct Hcase as [[Hy ->] | (Hy & Hst & ->)]; rewrite Hy; simpl; [reflexivity |].
    destruct (fetchone_stored _ _ Hst) as [c Hc']. rewrite Hc'. reflexivity.
  - intros H. destruct (Hmain H) as ((_ & _ & v & mk & md & y & _ & Hcase) & Hc & Hd).
    split; [| split; [| split; assumption]];
      destruct Hcase as [[_ ->] | (_ & _ & ->)]; discriminate.
Qed.

Lemma handle_msg_raises_witness :
  fst (handle_msg "create profile X1 Honda Accord 9223372036854775808" initial_world)
  = Raise OverflowError.
Proof.
  apply (proj1 (handle_msg_raises "create profile X1 Honda Accord 9223372036854775808"
                  initial_world OverflowError)).
  split; [reflexivity |]. split; [reflexivity |].
  exists "X1", "Honda", "Accord", 9223372036854775808.
  split; [reflexivity |]. left. split; reflexivity.
Defined.

(** ** The words the handler extracts *)

Lemma has_space_app s t : has_space (s ++ t) = has_space s || has_space t.
Proof.
  induction s as [| c s IH]; simpl; [reflexivity |].
  rewrite IH, orb_assoc. reflexivity.
Qed.

Lemma emit_tokens tok toks :
  has_space tok = false -> Forall is_token toks -> Forall is_token (PyStr.emit tok toks).
Proof.
  intros Ht Hs. destruct tok as [| c tok]; simpl; [exact Hs |].
  constructor; [| exact Hs]. split; [discriminate | exact Ht].
Qed.

Lemma split_from_tokens s : forall tok,
  has_space tok = false -> Forall is_token (PyStr.split_from tok s).
Proof.
  induction s as [| c s IH]; intros tok Ht; simpl.
  - apply emit_tokens; [exact Ht | constructor].
  - destruct (PyStr.isspace c) eqn:Hc.
    + apply emit_tokens; [exact Ht |]. apply IH. reflexivity.
    + apply IH. rewrite has_space_app, Ht. simpl. rewrite Hc. reflexivity.
Qed.

Lemma split_tokens s t : In t (PyStr.split s) -> is_token t.
Proof.
  intros H.
  pose proof (split_from_tokens s "" eq_refl) as F.
  rewrite Forall_forall in F. apply F, H.
Qed.

Lemma lookup_target_word msg v :
  lookup_target msg = Some v -> is_token v /\ has_upper v = false.
Proof.
  intros H. split; [| apply (lookup_target_token _ _ H)].
  apply (split_tokens (PyStr.lower msg)), (lookup_target_token _ _ H).
Qed.

Lemma create_fields_words msg v mk md y :
  create_fields msg = Some (v, mk, md, y) -> is_token v /\ is_token mk /\ is_token md.
Proof.
  unfold create_fields.
  destruct (nth_error (PyStr.split msg) 2) as [a |] eqn:H2; [| discriminate].
  destruct (nth_error (PyStr.split msg) 3) as [b |] eqn:H3; [| discriminate].
  destruct (nth_error (PyStr.split msg) 4) as [c |] eqn:H4; [| discriminate].
  destruct (nth_error (PyStr.split msg) 5) as [d |]; [| discriminate].
  destruct (PyStr.int d); [| discriminate].
  intros H. injection H as -> -> -> _.
  repeat split; try (apply (split_tokens msg); eapply nth_error_In; eassumption);
    eapply (split_tokens msg); eapply nth_error_In; eassumption.
Qed.

(** The VIN read by the lookup branch, and the VIN, make and model read by
    the create branch, are words: never empty, never containing a blank.
    The lookup VIN has no uppercase letter either. *)
Theorem extracted_fields_are_words (msg : string) :
  (forall v, lookup_target msg = Some v -> is_token v /\ has_upper v = false)
  /\ (forall v mk md y, create_fields msg = Some (v, mk, md, y) ->
        is_token v /\ is_token mk /\ is_token md).
Proof.
  split.
  - intros v. apply lookup_target_word.
  - intros v mk md y. apply create_fields_words.
Qed.

Lemma extracted_fields_are_words_witness :
  is_token "1hgcm" /\ has_upper "1hgcm" = false /\ is_token "Accord".
Proof.
  destruct (extracted_fields_are_words "Lookup VIN 1HGcm") as [Hl _].
  destruct (extracted_fields_are_words "create profile X1 Honda Accord 2003") as [_ Hc].
  destruct (Hl "1hgcm" eq_refl) as [H1 H2].
  destruct (Hc "X1" "Honda" "Accord" 2003 eq_refl) as (_ & _ & H3).
  split; [exact H1 |]. split; [exact H2 | exact H3].
Defined.

Lemma token_resolves c w :
  is_token (vin c) -> resolved (set_details (AssistantFnc.details_of c) w) = true.
Proof.
  intros [Hne _]. unfold resolved. simpl.
  destruct (String.eqb_spec (vin c) ""); [contradiction | reflexivity].
Qed.

(** ** A successful create turn *)

(** When the create branch reads four fields, the year fits the INTEGER
    column and the VIN is not stored yet, the reply is the confirmation,
    the row is appended after the existing ones, it becomes the current
    car, exactly one INSERT is sent, and the session is resolved. *)
Theorem create_turn_succeeds (msg : string) (w : world) (v mk md : string) (y : Z) :
  lookup_rule msg = false ->
  create_rule msg = true ->
  create_fields msg = Some (v, mk, md, y) ->
  DatabaseDriver.fits_int64 y = true ->
  ~ stored v (cars w) ->
  handle_msg msg w
  = (Ok "Car profile created!",
     mkWorld (cars w ++ [mkCar v mk md y])%list
       (AssistantFnc.details_of (mkCar v mk md y))
       (executed w ++ [Insert v mk md y])%list)
  /\ resolved (snd (handle_msg msg w)) = true.
Proof.
  intros Hl Hc Hf Hy Hv.
  assert (E : handle_msg msg w
              = (Ok "Car profile created!",
                 mkWorld (cars w ++ [mkCar v mk md y])%list
                   (AssistantFnc.details_of (mkCar v mk md y))
                   (executed w ++ [Insert v mk md y])%list)).
  { rewrite (handle_msg_create _ _ Hl Hc), create_branch_run, Hf,
      assistant_create_car_run, (insert_fresh _ _ _ _ _ Hy Hv). reflexivity. }
  split; [exact E |]. rewrite E.
  destruct (create_fields_words _ _ _ _ _ Hf) as ([Hne _] & _). unfold resolved. simpl.
  destruct (String.eqb_spec v ""); [contradiction | reflexivity].
Qed.

Lemma create_turn_succeeds_witness :
  let msg := "create profile 1HGCM82633A004352 Honda Accord 2003" in
  handle_msg msg initial_world
  = (Ok "Car profile created!",
     mkWorld [honda] (AssistantFnc.details_of honda)
       [Insert "1HGCM82633A004352" "Honda" "Accord" 2003])
  /\ resolved (snd (handle_msg msg initial_world)) = true.
Proof.
  intros msg.
  assert (Hfresh : ~ stored "1HGCM82633A004352" (cars initial_world)) by (simpl; tauto).
  exact (create_turn_succeeds msg initial_world "1HGCM82633A004352" "Honda" "Accord" 2003
           eq_refl eq_refl eq_refl eq_refl Hfresh).
Defined.

(** ** What one turn can change *)

(** The three shapes of a turn: nothing stored or cached; a row fetched and
    cached; a row appended and cached. *)
Lemma handle_msg_step msg w :
  let w' := snd (handle_msg msg w) in
  (cars w' = cars w /\ car_details w' = car_details w)
  \/ (cars w' = cars w
      /\ exists r, In r (cars w) /\ is_token (vin r)
                   /\ car_details w' = AssistantFnc.details_of r
                   /\ executed w' = (executed w ++ [Select (vin r)])%list)
  \/ (exists c, cars w' = (cars w ++ [c])%list
                /\ ~ stored (vin c) (cars w) /\ is_token (vin c)
                /\ DatabaseDriver.fits_int64 (year c) = true
                /\ car_details w' = AssistantFnc.details_of c
                /\ executed w'
                   = (executed w ++ [Insert (vin c) (make c) (model c) (year c)])%list).
Proof.
  cbv zeta. destruct (lookup_rule msg) eqn:Hl.
  - rewrite (handle_msg_lookup _ _ Hl), lookup_branch_run.
    destruct (lookup_target msg) as [v |] eqn:Ht; [| left; split; reflexivity].
    rewrite lookup_car_run.
    destruct (DatabaseDriver.fetchone v (cars w)) as [r |] eqn:Hf;
      [| left; split; reflexivity].
    right. left. split; [reflexivity |]. exists r.
    apply fetchone_Some in Hf as [Hin Hv].
    destruct (lookup_target_word _ _ Ht) as [Htok _]. rewrite Hv.
    split; [exact Hin |]. split; [exact Htok |]. split; reflexivity.
  - destruct (create_rule msg) eqn:Hc.
    + rewrite (handle_msg_create _ _ Hl Hc), create_branch_run.
      destruct (create_fields msg) as [[[[v mk] md] y] |] eqn:Hf;
        [| left; split; reflexivity].
      rewrite assistant_create_car_run.
      destruct (DatabaseDriver.insert v mk md y (cars w)) as [t | e] eqn:Hi;
        [| left; split; reflexivity].
      apply insert_Ok in Hi as (Hy & Hmiss & ->).
      right. right. exists (mkCar v mk md y). simpl.
      destruct (create_fields_words _ _ _ _ _ Hf) as (Htok & _).
      split; [reflexivity |]. split; [apply fetchone_None, Hmiss |].
      split; [exact Htok |]. split; [exact Hy |]. split; reflexivity.
    + rewrite (fallthrough_run _ _ Hl Hc). left. split; reflexivity.
Qed.

(** A turn sends at most one statement to the store, and the rows change
    only by an INSERT: when no INSERT is sent the rows are those before
    the turn. *)
Theorem one_statement_per_turn (msg : string) (w : world) :
  let w' := snd (handle_msg msg w) in
  executed w' = executed w
  \/ (exists v, executed w' = (executed w ++ [Select v])%list /\ cars w' = cars w)
  \/ (exists v mk md y, executed w' = (executed w ++ [Insert v mk md y])%list
        /\ (cars w' = cars w \/ cars w' = (cars w ++ [mkCar v mk md y])%list)).
Proof.
  cbv zeta. destruct (lookup_rule msg) eqn:Hl.
  - rewrite (handle_msg_lookup _ _ Hl), lookup_branch_run.
    destruct (lookup_target msg) as [v |]; [| left; reflexivity].
    rewrite lookup_car_run. right. left. exists v.
    destruct (DatabaseDriver.fetchone v (cars w)); split; reflexivity.
  - destruct (create_rule msg) eqn:Hc.
    + rewrite (handle_msg_create _ _ Hl Hc), create_branch_run.
      destruct (create_fields msg) as [[[[v mk] md] y] |]; [| left; reflexivity].
      rewrite assistant_create_car_run. right. right. exists v, mk, md, y.
      destruct (DatabaseDriver.insert v mk md y (cars w)) as [t | e] eqn:Hi; simpl.
      * apply insert_Ok in Hi as (_ & _ & ->). split; [reflexivity | right; reflexivity].
      * split; [reflexivity | left; reflexivity].
    + rewrite (fallthrough_run _ _ Hl Hc). left. reflexivity.
Qed.

(** ** Invariants of a conversation *)

Lemma run_snoc msgs msg w :
  run (msgs ++ [msg]) w = snd (handle_msg msg (run msgs w)).
Proof. unfold run. rewrite fold_left_app. reflexivity. Qed.

Lemma unique_vins_snoc t c :
  unique_vins t -> ~ stored (vin c) t -> unique_vins (t ++ [c]).
Proof.
  unfold unique_vins, stored. rewrite map_app. simpl.
  induction (map vin t) as [| x l IH]; simpl; intros U Hc.
  - constructor; [tauto | constructor].
  - inversion U as [| ? ? Hx U']; subst. constructor.
    + rewrite in_app_iff. simpl. intros [H | [H | []]]; [tauto |].
      apply Hc. left. congruence.
    + apply IH; [exact U' | tauto].
Qed.

Lemma run_unique msgs w :
  unique_vins (cars w) -> unique_vins (cars (run msgs w)).
Proof.
  intros U. induction msgs as [| msg msgs IH] using rev_ind; [exact U |].
  rewrite run_snoc.
  destruct (handle_msg_step msg (run msgs w))
    as [[Hc _] | [[Hc _] | (c & Hc & Hfresh & _)]]; rewrite Hc; auto.
  apply unique_vins_snoc; auto.
Qed.

(** Rows are never removed, changed or reordered: after any sequence of
    utterances the table is the one before followed by the rows created
    since.  If no two rows shared a VIN before, none do after, and every
    year stored by the conversation fits 64 bits. *)
Theorem conversation_only_appends (msgs : list string) (w : world) :
  exists added,
    cars (run msgs w) = (cars w ++ added)%list
    /\ Forall (fun c => is_token (vin c) /\ DatabaseDriver.fits_int64 (year c) = true) added
    /\ (unique_vins (cars w) -> unique_vins (cars (run msgs w))).
Proof.
  induction msgs as [| msg msgs IH] using rev_ind.
  - exists []. simpl. rewrite app_nil_r. split; [reflexivity |]. split; [constructor | tauto].
  - destruct IH as (added & Hcars & Hadded & HU). rewrite run_snoc.
    destruct (handle_msg_step msg (run msgs w))
      as [[Hc _] | [[Hc _] | (c & Hc & Hfresh & Htok & Hy & _)]].
    + exists added. rewrite Hc. auto.
    + exists added. rewrite Hc. auto.
    + exists (added ++ [c])%list. rewrite Hc, Hcars, app_assoc.
      split; [reflexivity |]. split.
      * apply Forall_app. split; [exact Hadded |]. constructor; [auto | constructor].
      * intros U. rewrite <- Hcars. apply unique_vins_snoc; auto.
Qed.

(** From the initial world, after any sequence of utterances (failed turns
    included), the cached details are those of [__init__] or those of a
    row that is in the table, whose VIN is a non-empty word; hence the
    session is resolved exactly when the cache is not the initial one. *)
Theorem cache_is_a_stored_row (msgs : list string) :
  let w := run msgs initial_world in
  unique_vins (cars w)
  /\ (car_details w = AssistantFnc.init /\ resolved w = false
      \/ exists r, In r (cars w) /\ is_token (vin r)
                   /\ car_details w = AssistantFnc.details_of r
                   /\ resolved w = true
                   /\ DatabaseDriver.fetchone (vin r) (cars w) = Some r).
Proof.
  cbv zeta.
  assert (U : forall l, unique_vins (cars (run l initial_world))).
  { intros l. apply run_unique. constructor. }
  split; [apply U |].
  induction msgs as [| msg msgs IH] using rev_ind.
  - left. split; reflexivity.
  - pose proof (U (msgs ++ [msg])%list) as U'. rewrite run_snoc in *.
    assert (Hres : forall r w', is_token (vin r) ->
                     car_details w' = AssistantFnc.details_of r -> resolved w' = true).
    { intros r w' [Hne _] Hd. unfold resolved. rewrite Hd. simpl.
      destruct (String.eqb_spec (vin r) ""); [contradiction | reflexivity]. }
    destruct (handle_msg_step msg (run msgs initial_world))
      as [[Hc Hd] | [(Hc & r & Hin & Htok & Hd & _) | (c & Hc & _ & Htok & _ & Hd & _)]].
    + unfold resolved in *. rewrite Hd, Hc.
      destruct IH as [IH | (r & Hin & Htok & Hr & Hres' & Hf)]; [left; exact IH |].
      right. exists r. repeat split; auto; apply Htok.
    + right. exists r. rewrite Hc in *.
      split; [exact Hin |]. split; [exact Htok |]. split; [exact Hd |].
      split; [apply (Hres r _ Htok Hd) |].
      apply fetchone_unique; auto.
    + right. exists c.
      assert (Hin : In c (cars (snd (handle_msg msg (run msgs initial_world))))).
      { rewrite Hc. apply in_or_app. right. left. reflexivity. }
      split; [exact Hin |]. split; [exact Htok |]. split; [exact Hd |].
      split; [apply (Hres c _ Htok Hd) |].
      apply fetchone_unique; auto.
Qed.

(** A resolved session stays resolved: no utterance clears the current
    car. *)
Theorem resolved_is_stable (msgs : list string) (w : world) :
  resolved w = true -> resolved (run msgs w) = true.
Proof.
  intros H. induction msgs as [| msg msgs IH] using rev_ind; [exact H |].
  rewrite run_snoc.
  destruct (handle_msg_step msg (run msgs w))
    as [[_ Hd] | [(_ & r & _ & Htok & Hd & _) | (c & _ & _ & Htok & _ & Hd & _)]];
    unfold resolved in *; rewrite Hd; [exact IH | |]; simpl.
  - destruct Htok as [Hne _].
    destruct (String.eqb_spec (vin r) ""); [contradiction | reflexivity].
  - destruct Htok as [Hne _].
    destruct (String.eqb_spec (vin c) ""); [contradiction | reflexivity].
Qed.

Lemma resolved_is_stable_witness :
  let w := mkWorld [honda] (AssistantFnc.details_of honda) [] in
  resolved w = true
  /\ resolved (run ["lookup vin nothing"; "create profile 1"; "hello"] w) = true.
Proof.
  intros w. split; [reflexivity |].
  exact (resolved_is_stable ["lookup vin nothing"; "create profile 1"; "hello"] w eq_refl).
Defined.

(** ** Reading back a number written in decimal *)

Example int_blanks_demo :
  PyStr.int (" 12" ++ PyStr.nl) = Some 12
  /\ PyStr.int (String (ascii_of_nat 28) "12") = None.
Proof. split; reflexivity. Qed.

Lemma digits_value_uint d : forall acc,
  PyStr.digits_value acc true (NilEmpty.string_of_uint d) = Some (uint_value acc d).
Proof.
  induction d; intros acc; cbn [NilEmpty.string_of_uint uint_value];
    [reflexivity | ..]; rewrite <- IHd; reflexivity.
Qed.

Lemma digits_value_uint_start d :
  d <> Decimal.Nil ->
  PyStr.digits_value 0 false (NilEmpty.string_of_uint d) = Some (uint_value 0 d).
Proof.
  destruct d; intros H; [contradiction | ..];
    cbn [NilEmpty.string_of_uint uint_value];
    rewrite <- digits_value_uint; reflexivity.
Qed.

Lemma uint_value_acc d : forall p,
  Z.pos (Pos.of_uint_acc d p) = uint_value (Z.pos p) d.
Proof.
  induction d; intros p; cbn [Pos.of_uint_acc uint_value]; [reflexivity | ..];
    rewrite IHd; f_equal; lia.
Qed.

Lemma uint_value_of_uint d : uint_value 0 d = Z.of_uint d.
Proof.
  unfold Z.of_uint.
  induction d; cbn [Pos.of_uint uint_value Z.of_N]; try reflexivity; try exact IHd;
    rewrite uint_value_acc; reflexivity.
Qed.

Lemma uint_value_to_uint p : uint_value 0 (Pos.to_uint p) = Z.pos p.
Proof.
  rewrite uint_value_of_uint. unfold Z.of_uint.
  rewrite DecimalPos.Unsigned.of_to. reflexivity.
Qed.

Lemma has_space_uint d : has_space (NilEmpty.string_of_uint d) = false.
Proof. induction d; simpl; try reflexivity; exact IHd. Qed.

Lemma Py_ISSPACE_isspace c : PyStr.isspace c = false -> PyStr.Py_ISSPACE c = false.
Proof. destruct c as [[] [] [] [] [] [] [] []]; intros H; try reflexivity; discriminate H. Qed.

Lemma rstrip_word s : has_space s = false -> PyStr.rstrip s = s.
Proof.
  induction s as [| c s IH]; simpl; [reflexivity |].
  intros H. apply orb_false_iff in H as [Hc Hs].
  rewrite (IH Hs), (Py_ISSPACE_isspace _ Hc). destruct s; reflexivity.
Qed.

Lemma strip_word s : has_space s = false -> PyStr.strip s = s.
Proof.
  intros H. unfold PyStr.strip.
  assert (L : PyStr.lstrip s = s).
  { destruct s as [| c s]; simpl; [reflexivity |].
    simpl in H. apply orb_false_iff in H as [Hc _].
    rewrite (Py_ISSPACE_isspace _ Hc). reflexivity. }
  rewrite L. apply rstrip_word, H.
Qed.

(** *** The number of digits of a number *)

Lemma digit_count_uint d :
  PyStr.digit_count (NilEmpty.string_of_uint d) = Z.of_nat (Decimal.nb_digits d).
Proof.
  induction d; cbn [NilEmpty.string_of_uint PyStr.digit_count Decimal.nb_digits];
    [reflexivity | ..]; rewrite IHd, Nat2Z.inj_succ;
    change (if PyStr.isdigit _ then 1 else 0) with 1; lia.
Qed.

Lemma uint_value_lower d : forall acc,
  0 <= acc -> acc * 10 ^ Z.of_nat (Decimal.nb_digits d) <= uint_value acc d.
Proof.
  induction d; intros acc Hacc; cbn [uint_value Decimal.nb_digits];
    [rewrite Z.pow_0_r; lia | ..];
    rewrite Nat2Z.inj_succ, Z.pow_succ_r by lia;
    (assert (P : 0 < 10 ^ Z.of_nat (Decimal.nb_digits d))
       by (apply Z.pow_pos_nonneg; lia));
    match goal with
    | |- _ <= uint_value ?a d =>
        assert (Ha : 0 <= a) by lia; specialize (IHd a Ha); nia
    end.
Qed.

Lemma to_uint_head p :
  match Pos.to_uint p with
  | Decimal.Nil | Decimal.D0 _ => False
  | _ => True
  end.
Proof.
  pose proof (DecimalPos.Unsigned.to_uint_nonnil p) as Hn.
  pose proof (DecimalPos.Unsigned.to_uint_nonzero p) as Hz.
  pose proof (DecimalPos.Unsigned.to_of (Pos.to_uint p)) as Hu.
  rewrite DecimalPos.Unsigned.of_to in Hu. cbn [N.to_uint] in Hu.
  destruct (Pos.to_uint p) as [| u | | | | | | | | |] eqn:E; auto.
  rewrite DecimalFacts.unorm_D0 in Hu. unfold Decimal.unorm in Hu.
  destruct (Decimal.nzhead u) eqn:Hh;
    try (exfalso; symmetry in Hu; revert Hu; rewrite <- Hh; apply DecimalFacts.nzhead_nonzero).
  exact (Hz Hu).
Qed.

Lemma to_uint_digits p n :
  0 <= n -> Z.pos p < 10 ^ n -> Z.of_nat (Decimal.nb_digits (Pos.to_uint p)) <= n.
Proof.
  intros Hn Hp.
  pose proof (to_uint_head p) as Hh. pose proof (uint_value_to_uint p) as Hv.
  destruct (Z.le_gt_cases (Z.of_nat (Decimal.nb_digits (Pos.to_uint p))) n) as [L | G];
    [exact L | exfalso].
  assert (Hlow : 10 ^ n <= uint_value 0 (Pos.to_uint p)); [| lia].
  destruct (Pos.to_uint p) as [| u | u | u | u | u | u | u | u | u | u];
    try contradiction; cbn [uint_value Decimal.nb_digits] in *;
    rewrite Nat2Z.inj_succ in G;
    (assert (M : 10 ^ n <= 10 ^ Z.of_nat (Decimal.nb_digits u))
       by (apply Z.pow_le_mono_r; lia));
    match goal with
    | |- _ <= uint_value ?a u =>
        pose proof (uint_value_lower u a ltac:(lia)) as Hl; nia
    end.
Qed.

Lemma string_of_uint_to_uint p :
  NilZero.string_of_uint (Pos.to_uint p) = NilEmpty.string_of_uint (Pos.to_uint p).
Proof.
  pose proof (DecimalPos.Unsigned.to_uint_nonnil p) as Hn.
  unfold NilZero.string_of_uint. destruct (Pos.to_uint p); [contradiction | ..]; reflexivity.
Qed.

Lemma digit_count_str_of_int z :
  Z.abs z < 10 ^ PyStr.MAX_STR_DIGITS ->
  (PyStr.MAX_STR_DIGITS <? PyStr.digit_count (PyStr.str_of_int z)) = false.
Proof.
  intros Hz. apply Z.ltb_ge. unfold PyStr.str_of_int.
  assert (H0 : 0 <= PyStr.MAX_STR_DIGITS) by (unfold PyStr.MAX_STR_DIGITS; lia).
  destruct z as [| p | p]; cbn [Z.to_int NilZero.string_of_int].
  - unfold PyStr.MAX_STR_DIGITS. vm_compute. discriminate.
  - rewrite string_of_uint_to_uint, digit_count_uint.
    exact (to_uint_digits p _ H0 Hz).
  - rewrite string_of_uint_to_uint. cbn [PyStr.digit_count].
    change (if PyStr.isdigit "-" then 1 else 0) with 0.
    rewrite digit_count_uint. pose proof (to_uint_digits p _ H0 Hz). lia.
Qed.

Lemma str_of_int_word z :
  PyStr.str_of_int z <> "" /\ has_space (PyStr.str_of_int z) = false.
Proof.
  unfold PyStr.str_of_int.
  destruct z as [| p | p]; simpl Z.to_int; [split; [discriminate | reflexivity] | |];
    unfold NilZero.string_of_int, NilZero.string_of_uint;
    pose proof (DecimalPos.Unsigned.to_uint_nonnil p) as Hn;
    destruct (Pos.to_uint p) eqn:E; try contradiction;
    (split; [discriminate | simpl; apply has_space_uint]).
Qed.

(** [int(str(z))] is [z] for a number of at most 4300 digits: the year
    shown in a reply is read back as the same number by the create
    branch. *)
Lemma int_str_of_int z :
  Z.abs z < 10 ^ PyStr.MAX_STR_DIGITS -> PyStr.int (PyStr.str_of_int z) = Some z.
Proof.
  intros Hz. unfold PyStr.int.
  rewrite (strip_word _ (proj2 (str_of_int_word z))), (digit_count_str_of_int z Hz).
  unfold PyStr.str_of_int. destruct z as [| p | p]; cbn [Z.to_int NilZero.string_of_int].
  - reflexivity.
  - pose proof (DecimalPos.Unsigned.to_uint_nonnil p) as Hn.
    rewrite string_of_uint_to_uint.
    rewrite <- (uint_value_to_uint p), <- (digits_value_uint_start _ Hn).
    destruct (Pos.to_uint p); [contradiction | ..]; reflexivity.
  - pose proof (DecimalPos.Unsigned.to_uint_nonnil p) as Hn.
    rewrite string_of_uint_to_uint. cbv beta iota.
    rewrite (digits_value_uint_start _ Hn), uint_value_to_uint. reflexivity.
Qed.

Lemma fits_int64_digits y :
  DatabaseDriver.fits_int64 y = true -> Z.abs y < 10 ^ PyStr.MAX_STR_DIGITS.
Proof.
  unfold DatabaseDriver.fits_int64. intros H.
  apply andb_true_iff in H as [H1 H2]. apply Z.leb_le in H1. apply Z.ltb_lt in H2.
  assert (B : 2 ^ 63 < 10 ^ PyStr.MAX_STR_DIGITS)
    by (apply Z.ltb_lt; vm_compute; reflexivity).
  lia.
Qed.

(** [str] of an int is injective. *)
Lemma str_of_int_inj y1 y2 : PyStr.str_of_int y1 = PyStr.str_of_int y2 -> y1 = y2.
Proof.
  unfold PyStr.str_of_int. intros E.
  assert (N : forall z, Z.to_int z <> Decimal.Pos Decimal.Nil
                        /\ Z.to_int z <> Decimal.Neg Decimal.Nil).
  { intros [| p | p]; simpl; split; try discriminate;
      intros H; injection H as H; exact (DecimalPos.Unsigned.to_uint_nonnil p H). }
  assert (S : Some (Z.to_int y1) = Some (Z.to_int y2)).
  { rewrite <- (NilZero.isi _ (proj1 (N y1)) (proj2 (N y1))),
      <- (NilZero.isi _ (proj1 (N y2)) (proj2 (N y2))), E. reflexivity. }
  injection S as S.
  rewrite <- (DecimalZ.of_to y1), <- (DecimalZ.of_to y2), S. reflexivity.
Qed.

(** ** Splitting an utterance made of words *)

Lemma append_String_assoc tok c s : (tok ++ String c "") ++ s = tok ++ String c s.
Proof. induction tok as [| x tok IH]; simpl; [reflexivity | rewrite IH; reflexivity]. Qed.

Lemma append_empty_r s : s ++ "" = s.
Proof. induction s as [| c s IH]; simpl; [reflexivity | rewrite IH; reflexivity]. Qed.

Lemma split_from_word a : forall tok rest,
  has_space a = false ->
  PyStr.split_from tok (a ++ rest) = PyStr.split_from (tok ++ a) rest.
Proof.
  induction a as [| c a IH]; intros tok rest H; simpl.
  - rewrite append_empty_r. reflexivity.
  - simpl in H. apply orb_false_iff in H as [Hc Ha].
    rewrite Hc, (IH _ _ Ha), append_String_assoc. reflexivity.
Qed.

Lemma split_word_then_space a rest :
  is_token a ->
  PyStr.split_from "" (a ++ String " " rest) = a :: PyStr.split_from "" rest.
Proof.
  intros [Hne Ha]. rewrite (split_from_word a "" _ Ha). simpl.
  destruct a; [contradiction | reflexivity].
Qed.

Lemma split_last_word a :
  is_token a -> PyStr.split_from "" a = [a].
Proof.
  intros [Hne Ha].
  rewrite <- (append_empty_r a) at 1. rewrite (split_from_word a "" "" Ha). simpl.
  destruct a; [contradiction | reflexivity].
Qed.

Lemma str_of_int_token z : is_token (PyStr.str_of_int z).
Proof. exact (str_of_int_word z). Qed.

Lemma isspace_lower_char c : PyStr.isspace (PyStr.lower_char c) = PyStr.isspace c.
Proof. destruct c as [[] [] [] [] [] [] [] []]; reflexivity. Qed.

Lemma lower_token v : is_token v -> is_token (PyStr.lower v).
Proof.
  intros [Hne Hs]. split.
  - destruct v; [contradiction | discriminate].
  - clear Hne. induction v as [| c v IH]; simpl in *; [reflexivity |].
    apply orb_false_iff in Hs as [Hc Hv].
    rewrite isspace_lower_char, Hc, (IH Hv). reflexivity.
Qed.

Lemma lower_fixed v : has_upper v = false -> PyStr.lower v = v.
Proof.
  induction v as [| c v IH]; simpl; [reflexivity |].
  intros H. apply orb_false_iff in H as [Hc Hv].
  unfold PyStr.lower_char. rewrite Hc, (IH Hv). reflexivity.
Qed.

(** ** The two documented formats *)

Lemma split_create_utterance v mk md y :
  is_token v -> is_token mk -> is_token md ->
  PyStr.split (create_utterance v mk md y)
  = ["create"; "profile"; v; mk; md; PyStr.str_of_int y].
Proof.
  intros Hv Hmk Hmd. unfold PyStr.split, create_utterance.
  change ("create profile " ++ v ++ " " ++ mk ++ " " ++ md ++ " " ++ PyStr.str_of_int y)
    with ("create" ++ String " " ("profile" ++ String " "
            (v ++ String " " (mk ++ String " " (md ++ String " " (PyStr.str_of_int y)))))).
  rewrite (split_word_then_space "create"), (split_word_then_space "profile"),
    (split_word_then_space v _ Hv), (split_word_then_space mk _ Hmk),
    (split_word_then_space md _ Hmd), (split_last_word _ (str_of_int_token y));
    [reflexivity | split; [discriminate | reflexivity] ..].
Qed.

Lemma create_utterance_fields v mk md y :
  is_token v -> is_token mk -> is_token md ->
  Z.abs y < 10 ^ PyStr.MAX_STR_DIGITS ->
  create_fields (create_utterance v mk md y) = Some (v, mk, md, y).
Proof.
  intros Hv Hmk Hmd Hy.
  unfold create_fields. rewrite (split_create_utterance v mk md y Hv Hmk Hmd).
  cbn [nth_error]. rewrite (int_str_of_int y Hy). reflexivity.
Qed.

Lemma lookup_utterance_target v :
  is_token v -> lookup_target (lookup_utterance v) = Some (PyStr.lower v).
Proof.
  intros Hv. unfold lookup_target, lookup_utterance, PyStr.split.
  change (PyStr.lower ("lookup vin " ++ v))
    with ("lookup" ++ String " " ("vin" ++ String " " (PyStr.lower v))).
  rewrite (split_word_then_space "lookup"), (split_word_then_space "vin"),
    (split_last_word _ (lower_token _ Hv));
    [reflexivity | split; [discriminate | reflexivity] ..].
Qed.

(** An utterance in the documented format "create profile VIN MAKE MODEL
    YEAR", whose first three fields are words and whose year is written in
    decimal with at most 4300 digits, triggers the create rule and is read
    as exactly those four fields, in their original letter case.  Unless
    it also triggers the lookup rule, the handler passes them to
    [create_car] unchanged. *)
Theorem documented_create_format (v mk md : string) (y : Z) (w : world) :
  is_token v -> is_token mk -> is_token md ->
  Z.abs y < 10 ^ PyStr.MAX_STR_DIGITS ->
  create_rule (create_utterance v mk md y) = true
  /\ create_fields (create_utterance v mk md y) = Some (v, mk, md, y)
  /\ (lookup_rule (create_utterance v mk md y) = false ->
      handle_msg (create_utterance v mk md y) w = AssistantFnc.create_car v mk md y w).
Proof.
  intros Hv Hmk Hmd Hy.
  assert (Hc : create_rule (create_utterance v mk md y) = true) by reflexivity.
  pose proof (create_utterance_fields v mk md y Hv Hmk Hmd Hy) as Hf.
  split; [exact Hc |]. split; [exact Hf |].
  intros Hl. rewrite (handle_msg_create _ _ Hl Hc), create_branch_run, Hf. reflexivity.
Qed.

Lemma documented_create_format_witness :
  create_fields "create profile 1HGCM82633A004352 Honda Accord -17"
  = Some ("1HGCM82633A004352", "Honda", "Accord", -17).
Proof.
  assert (T : forall s, s <> "" -> has_space s = false -> is_token s)
    by (intros s H1 H2; split; assumption).
  destruct (documented_create_format "1HGCM82633A004352" "Honda" "Accord" (-17) initial_world)
    as (_ & H & _).
  - apply T; [discriminate | reflexivity].
  - apply T; [discriminate | reflexivity].
  - apply T; [discriminate | reflexivity].
  - vm_compute. reflexivity.
  - exact H.
Defined.

(** An utterance in the documented format "lookup vin VIN", whose VIN is a
    word, triggers the lookup rule and queries the store for the
    lowercased VIN. *)
Theorem documented_lookup_format (v : string) (w : world) :
  is_token v ->
  lookup_rule (lookup_utterance v) = true
  /\ lookup_target (lookup_utterance v) = Some (PyStr.lower v)
  /\ handle_msg (lookup_utterance v) w = AssistantFnc.lookup_car (PyStr.lower v) w.
Proof.
  intros Hv.
  assert (Hl : lookup_rule (lookup_utterance v) = true) by reflexivity.
  pose proof (lookup_utterance_target v Hv) as Ht.
  split; [exact Hl |]. split; [exact Ht |].
  rewrite (handle_msg_lookup _ _ Hl), lookup_branch_run, Ht. reflexivity.
Qed.

Lemma documented_lookup_format_witness :
  lookup_target "lookup vin 1HGCM82633A004352" = Some "1hgcm82633a004352".
Proof.
  assert (T : is_token "1HGCM82633A004352") by (split; [discriminate | reflexivity]).
  destruct (documented_lookup_format "1HGCM82633A004352" initial_world T) as (_ & H & _).
  exact H.
Defined.

(** ** Round trips *)

Lemma upper_not_lower v : has_upper v = true -> v <> PyStr.lower v.
Proof.
  intros H E. pose proof (has_upper_lower v) as L. rewrite <- E in L. congruence.
Qed.

(** Create then look up, both by utterance in the documented formats, for
    a create utterance that does not also trigger the lookup rule (its
    lowercase form does not contain both "lookup" and "vin").  The create
    turn confirms.  If the VIN has no uppercase letter, the
    lookup turn finds the car just created and renders its four fields.
    If the VIN has an uppercase letter and its lowercase form was not
    stored before, the lookup turn answers "Car not found". *)
Theorem utterance_round_trip (v mk md : string) (y : Z) (w : world) :
  is_token v -> is_token mk -> is_token md ->
  DatabaseDriver.fits_int64 y = true ->
  ~ stored v (cars w) ->
  lookup_rule (create_utterance v mk md y) = false ->
  let w1 := snd (handle_msg (create_utterance v mk md y) w) in
  fst (handle_msg (create_utterance v mk md y) w) = Ok "Car profile created!"
  /\ (has_upper v = false ->
      fst (handle_msg (lookup_utterance v) w1)
      = Ok ("The car details are:" ++ PyStr.nl
            ++ AssistantFnc.get_car_str (AssistantFnc.details_of (mkCar v mk md y)))
      /\ car_details (snd (handle_msg (lookup_utterance v) w1))
         = AssistantFnc.details_of (mkCar v mk md y))
  /\ (has_upper v = true -> ~ stored (PyStr.lower v) (cars w) ->
      fst (handle_msg (lookup_utterance v) w1) = Ok "Car not found").
Proof.
  intros Hv Hmk Hmd Hy Hfresh Hl. cbv zeta.
  assert (Hc : create_rule (create_utterance v mk md y) = true) by reflexivity.
  rewrite (handle_msg_create _ _ Hl Hc), create_branch_run,
    (create_utterance_fields v mk md y Hv Hmk Hmd (fits_int64_digits y Hy)),
    assistant_create_car_run,
    (insert_fresh _ _ _ _ _ Hy Hfresh).
  cbn [fst snd]. split; [reflexivity |].
  assert (Hk : lookup_rule (lookup_utterance v) = true) by reflexivity.
  rewrite (handle_msg_lookup _ _ Hk), lookup_branch_run, (lookup_utterance_target v Hv),
    lookup_car_run.
  cbn [cars set_details set_cars log_stmt].
  apply fetchone_None in Hfresh. split.
  - intros Hup. rewrite (lower_fixed _ Hup), (fetchone_app_miss _ _ _ Hfresh).
    simpl DatabaseDriver.fetchone. rewrite String.eqb_refl. split; reflexivity.
  - intros Hup Hlow. apply fetchone_None in Hlow.
    rewrite (fetchone_app_miss _ _ _ Hlow). simpl DatabaseDriver.fetchone.
    destruct (String.eqb_spec v (PyStr.lower v)) as [Heq | _]; [| reflexivity].
    exfalso. exact (upper_not_lower _ Hup Heq).
Qed.

Lemma utterance_round_trip_witness :
  let w1 := snd (handle_msg (create_utterance "abc1" "Toyota" "Camry" 2001) initial_world) in
  fst (handle_msg (lookup_utterance "abc1") w1)
  = Ok ("The car details are:" ++ PyStr.nl
        ++ AssistantFnc.get_car_str (AssistantFnc.details_of lower_twin)).
Proof.
  assert (T1 : is_token "abc1") by (split; [discriminate | reflexivity]).
  assert (T2 : is_token "Toyota") by (split; [discriminate | reflexivity]).
  assert (T3 : is_token "Camry") by (split; [discriminate | reflexivity]).
  assert (Hfresh : ~ stored "abc1" (cars initial_world)) by (simpl; tauto).
  destruct (utterance_round_trip "abc1" "Toyota" "Camry" 2001 initial_world
              T1 T2 T3 eq_refl Hfresh eq_refl)
    as (_ & H & _).
  exact (proj1 (H eq_refl)).
Defined.

(** Create then look up through the function tools: for any VIN that was
    not stored, whatever its letter case, [lookup_car] after a successful
    [create_car] renders the four arguments.  The session is resolved
    unless the VIN is the empty string. *)
Theorem tool_round_trip (v mk md : string) (y : Z) (w : world) :
  DatabaseDriver.fits_int64 y = true ->
  ~ stored v (cars w) ->
  let w1 := snd (VehicleRegistrationAgent.create_car v mk md y w) in
  fst (VehicleRegistrationAgent.create_car v mk md y w) = Ok "Car profile created!"
  /\ fst (VehicleRegistrationAgent.lookup_car v w1)
     = Ok ("The car details are:" ++ PyStr.nl
           ++ AssistantFnc.get_car_str (AssistantFnc.details_of (mkCar v mk md y)))
  /\ cars (snd (VehicleRegistrationAgent.lookup_car v w1)) = (cars w ++ [mkCar v mk md y])%list
  /\ resolved w1 = negb (String.eqb v "").
Proof.
  intros Hy Hfresh. cbv zeta.
  unfold VehicleRegistrationAgent.create_car, VehicleRegistrationAgent.lookup_car.
  rewrite assistant_create_car_run, (insert_fresh _ _ _ _ _ Hy Hfresh). cbn [fst snd].
  split; [reflexivity |].
  rewrite lookup_car_run. apply fetchone_None in Hfresh.
  cbn [cars set_details set_cars log_stmt].
  rewrite (fetchone_app_miss _ _ _ Hfresh). simpl DatabaseDriver.fetchone.
  rewrite String.eqb_refl. repeat split.
Qed.

Lemma tool_round_trip_witness :
  let w1 := snd (VehicleRegistrationAgent.create_car "1HGCM82633A004352" "Honda" "Accord"
                   2003 initial_world) in
  fst (VehicleRegistrationAgent.lookup_car "1HGCM82633A004352" w1)
  = Ok ("The car details are:" ++ PyStr.nl
        ++ AssistantFnc.get_car_str (AssistantFnc.details_of honda))
  /\ resolved w1 = true.
Proof.
  assert (Hfresh : ~ stored "1HGCM82633A004352" (cars initial_world)) by (simpl; tauto).
  destruct (tool_round_trip "1HGCM82633A004352" "Honda" "Accord" 2003 initial_world
              eq_refl Hfresh) as (_ & H & _ & R).
  split; [exact H | exact R].
Defined.

(** Repeating a lookup utterance changes nothing further: the second turn
    gives the same reply as the first and leaves the rows and the cached
    details as the first turn left them. *)
Theorem lookup_turn_idempotent (msg : string) (w : world) :
  lookup_rule msg = true ->
  let w1 := snd (handle_msg msg w) in
  fst (handle_msg msg w1) = fst (handle_msg msg w)
  /\ cars (snd (handle_msg msg w1)) = cars w
  /\ car_details (snd (handle_msg msg w1)) = car_details w1.
Proof.
  intros Hl. cbv zeta.
  rewrite !(handle_msg_lookup _ _ Hl), !lookup_branch_run.
  destruct (lookup_target msg) as [v |]; [| repeat split].
  rewrite (lookup_car_run v w).
  destruct (DatabaseDriver.fetchone v (cars w)) as [c |] eqn:Hf;
    cbn [fst snd]; rewrite lookup_car_run; cbn [cars set_details log_stmt];
    rewrite Hf; repeat split.
Qed.

Lemma lookup_turn_idempotent_witness :
  let msg := "lookup vin abc1" in
  let w := mkWorld [upper_twin; lower_twin] AssistantFnc.init [] in
  fst (handle_msg msg (snd (handle_msg msg w))) = fst (handle_msg msg w)
  /\ car_details (snd (handle_msg msg (snd (handle_msg msg w))))
     = AssistantFnc.details_of lower_twin.
Proof.
  intros msg w.
  destruct (lookup_turn_idempotent msg w eq_refl) as (H1 & _ & H3).
  split; [exact H1 |]. rewrite H3. reflexivity.
Defined.

Lemma conversation_only_appends_witness :
  let msgs := ["create profile X1 Honda Accord 2003"; "create profile X1 Kia Rio 2010";
               "lookup vin x1"; "create profile x2 Kia Rio 2010"] in
  unique_vins (cars initial_world)
  /\ unique_vins (cars (run msgs initial_world))
  /\ cars (run msgs initial_world)
     = [mkCar "X1" "Honda" "Accord" 2003; mkCar "x2" "Kia" "Rio" 2010].
Proof.
  intros msgs.
  assert (U : unique_vins (cars initial_world)) by constructor.
  destruct (conversation_only_appends msgs initial_world) as (added & _ & _ & H).
  split; [exact U |]. split; [exact (H U) | reflexivity].
Defined.

(** ** The store seen through lookups, and the rendering of a car *)

(** In a table where no two rows share a VIN, [get_car_by_vin v] returns a
    car exactly when that car is a row with VIN [v], and returns [None]
    exactly when no row has VIN [v]; it never raises and never changes the
    rows. *)
Theorem lookup_sound_and_complete (v : string) (w : world) (r : Car) :
  unique_vins (cars w) ->
  (fst (DatabaseDriver.get_car_by_vin v w) = Ok (Some r) <-> In r (cars w) /\ vin r = v)
  /\ (fst (DatabaseDriver.get_car_by_vin v w) = Ok None <-> ~ stored v (cars w))
  /\ cars (snd (DatabaseDriver.get_car_by_vin v w)) = cars w.
Proof.
  intros U. rewrite get_car_by_vin_run. cbn [fst snd]. split; [| split].
  - split.
    + intros H. injection H as H. apply fetchone_Some, H.
    + intros [Hin Hv]. rewrite (fetchone_unique v _ r U Hin Hv). reflexivity.
  - rewrite <- fetchone_None. split; intros H; [injection H as H; exact H | rewrite H; reflexivity].
  - reflexivity.
Qed.

Lemma lookup_sound_and_complete_witness :
  let w := mkWorld [upper_twin; lower_twin] AssistantFnc.init [] in
  fst (DatabaseDriver.get_car_by_vin "abc1" w) = Ok (Some lower_twin)
  /\ fst (DatabaseDriver.get_car_by_vin "Abc1" w) = Ok None.
Proof.
  intros w.
  assert (U : unique_vins (cars w)).
  { repeat constructor; simpl; intros H; repeat destruct H as [H | H]; try discriminate H;
      exact H. }
  split.
  - apply (proj1 (lookup_sound_and_complete "abc1" w lower_twin U)).
    split; [right; left; reflexivity | reflexivity].
  - apply (proj1 (proj2 (lookup_sound_and_complete "Abc1" w lower_twin U))).
    simpl. intros H. repeat destruct H as [H | H]; try discriminate H; exact H.
Defined.

(** The rendering sent in replies determines the car: two cars whose VIN,
    make and model contain no blank character (as all fields read from an
    utterance) and that are rendered alike are the same car. *)
Theorem rendering_determines_car (c1 c2 : Car) :
  has_space (vin c1) = false -> has_space (make c1) = false -> has_space (model c1) = false ->
  has_space (vin c2) = false -> has_space (make c2) = false -> has_space (model c2) = false ->
  AssistantFnc.get_car_str (AssistantFnc.details_of c1)
  = AssistantFnc.get_car_str (AssistantFnc.details_of c2) ->
  c1 = c2.
Proof.
  destruct c1 as [v1 k1 m1 y1], c2 as [v2 k2 m2 y2]. simpl vin. simpl make. simpl model.
  intros Hv1 Hk1 Hm1 Hv2 Hk2 Hm2 E.
  unfold AssistantFnc.get_car_str, AssistantFnc.items, AssistantFnc.details_of,
    PyStr.join in E.
  cbn [map fst snd String.concat CarDetails_value AssistantFnc.format
       d_vin d_make d_model d_year vin make model year] in E.
  change ("vin: " ++ ?a) with (String "v" (String "i" (String "n" (String ":" (String " " a))))) in E.
  injection E as E.
  apply (cut_at_newline _ _ _ _ Hv1 Hv2) in E as [-> E].
  change ("make: " ++ ?a)
    with (String "m" (String "a" (String "k" (String "e" (String ":" (String " " a)))))) in E.
  injection E as E.
  apply (cut_at_newline _ _ _ _ Hk1 Hk2) in E as [-> E].
  change ("model: " ++ ?a)
    with (String "m" (String "o" (String "d" (String "e" (String "l" (String ":" (String " " a))))))) in E.
  injection E as E.
  apply (cut_at_newline _ _ _ _ Hm1 Hm2) in E as [-> E].
  change ("year: " ++ ?a)
    with (String "y" (String "e" (String "a" (String "r" (String ":" (String " " a)))))) in E.
  injection E as E.
  apply str_of_int_inj in E as ->. reflexivity.
Qed.

Lemma rendering_determines_car_witness :
  AssistantFnc.get_car_str (AssistantFnc.details_of honda)
  = AssistantFnc.get_car_str
      (AssistantFnc.details_of (mkCar "1HGCM82633A004352" "Honda" "Accord" (1000 + 1003)))
  /\ honda = mkCar "1HGCM82633A004352" "Honda" "Accord" (1000 + 1003).
Proof.
  split; [reflexivity |].
  exact (rendering_determines_car honda
           (mkCar "1HGCM82633A004352" "Honda" "Accord" (1000 + 1003))
           eq_refl eq_refl eq_refl eq_refl eq_refl eq_refl eq_refl).
Defined.
